(** * android_otp_extractor.contrib: a shallow embedding and its properties

    The module [contrib.py] holds three things:
    - [escape_sql_string], a pure string function;
    - [open_remote_sqlite_database], a generator-based context manager that
      pulls a database and its side files into a temporary directory;
    - [display_qr_codes], which renders the accounts into a temporary HTML
      file, opens it in the browser and removes it.

    Python [str] values are sequences of Unicode code points and are modelled
    as [list N]; [bytes] values are modelled as [list N] as well.  Effects
    (local temporary files, connections, exceptions) are modelled with a
    state-and-exception monad over an explicit [World]. *)

From Stdlib Require Import ZArith NArith List Ascii String Lia Permutation Sorted.
From stdpp Require Import base gmap list sorting strings.

Local Open Scope N_scope.

(** ** Python strings *)

Abbreviation str := (list N).
Abbreviation bytes := (list N).

(** [py "text"] is the Python string with the given (ASCII) characters. *)
Definition py (s : string) : str := N_of_ascii <$> list_ascii_of_string s.

(** [str.translate(table)]: every character whose ordinal is a key of the
    table is replaced by the table's string, every other one is kept. *)
Definition translate (table : gmap N str) (text : str) : str :=
  flat_map (λ c, default [c] (table !! c)) text.

(** ** SQL literal escaping (contrib.py, lines 14-32) *)

(** [str.maketrans] turns the one-character keys into their ordinals. *)
Definition SQL_BACKSLASHED_CHARS : gmap N str :=
  list_to_map
    [ (0x00, py "\0");
      (0x08, py "\b");
      (0x09, py "\t");
      (0x1a, py "\z");
      (0x0a, py "\n");
      (0x0d, py "\r");
      (0x5c, py "\\");
      (0x25, py "\%");
      (0x27, py "''") ].

Definition escape_sql_string (text : str) : str :=
  py "'" ++ translate SQL_BACKSLASHED_CHARS text ++ py "'".

(** The substitution table as the specification words it, on code points:
    the backslash is 92, the quote 39. *)
Definition spec_substitution (c : N) : str :=
  if c =? 0 then [92; 48]            (* NUL        -> \0 *)
  else if c =? 8 then [92; 98]       (* backspace  -> \b *)
  else if c =? 9 then [92; 116]      (* tab        -> \t *)
  else if c =? 26 then [92; 122]     (* substitute -> \z *)
  else if c =? 10 then [92; 110]     (* newline    -> \n *)
  else if c =? 13 then [92; 114]     (* return     -> \r *)
  else if c =? 92 then [92; 92]      (* backslash  -> \\ *)
  else if c =? 37 then [92; 37]      (* percent    -> \% *)
  else if c =? 39 then [39; 39]      (* quote      -> '' *)
  else [c].

(** *** Reading a literal back

    SQLite, the engine the docstring of [escape_sql_string] names, reads a
    string literal the way standard SQL does: the literal is enclosed in
    single quotes, a quote inside it is written twice, and a backslash is an
    ordinary character. *)
Fixpoint sqlite_literal_body (s : str) : option str :=
  match s with
  | [] => None
  | c :: rest =>
      if c =? 39 then
        match rest with
        | [] => Some []
        | c' :: rest' =>
            if c' =? 39 then cons 39 <$> sqlite_literal_body rest' else None
        end
      else cons c <$> sqlite_literal_body rest
  end.

Definition sqlite_literal_value (s : str) : option str :=
  match s with
  | c :: rest => if c =? 39 then sqlite_literal_body rest else None
  | [] => None
  end.

(** MySQL reads backslash escapes inside a literal: [\0], [\b], [\t], [\n],
    [\r], [\Z] (capital only), [\\], [\'] and the double quote stand for one
    character, [\%] and [\_] stand for themselves with the backslash kept, and
    before any other character the backslash is dropped. *)
Definition mysql_escape (c : N) : str :=
  if c =? 48 then [0]
  else if c =? 98 then [8]
  else if c =? 116 then [9]
  else if c =? 110 then [10]
  else if c =? 114 then [13]
  else if c =? 90 then [26]
  else if (c =? 37) || (c =? 95) then [92; c]
  else [c].

Fixpoint mysql_literal_body (s : str) : option str :=
  match s with
  | [] => None
  | c :: rest =>
      if c =? 39 then
        match rest with
        | [] => Some []
        | c' :: rest' =>
            if c' =? 39 then cons 39 <$> mysql_literal_body rest' else None
        end
      else if c =? 92 then
        match rest with
        | [] => None
        | c' :: rest' => app (mysql_escape c') <$> mysql_literal_body rest'
        end
      else cons c <$> mysql_literal_body rest
  end.

Definition mysql_literal_value (s : str) : option str :=
  match s with
  | c :: rest => if c =? 39 then mysql_literal_body rest else None
  | [] => None
  end.

(** The characters the table writes with a backslash. *)
Definition backslashed (c : N) : bool :=
  bool_decide (c ∈ [0; 8; 9; 26; 10; 13; 92; 37]).

(** What SQLite reads back from an escaped string: the quote comes back as
    one quote, but every backslash form comes back as the two characters
    that were written. *)
Definition sqlite_read_back (c : N) : str :=
  if c =? 39 then [39] else spec_substitution c.

(** *** Reading the table backwards

    The character a backslash form stands for, and the text a sequence of
    substitutions was made from. *)
Definition backslash_form_of (x : N) : option N :=
  if x =? 48 then Some 0
  else if x =? 98 then Some 8
  else if x =? 116 then Some 9
  else if x =? 122 then Some 26
  else if x =? 110 then Some 10
  else if x =? 114 then Some 13
  else if x =? 92 then Some 92
  else if x =? 37 then Some 37
  else None.

Fixpoint unsubstitute (s : str) : option str :=
  match s with
  | [] => Some []
  | c :: rest =>
      if c =? 92 then
        match rest with
        | x :: rest' =>
            match backslash_form_of x with
            | Some o => cons o <$> unsubstitute rest'
            | None => None
            end
        | [] => None
        end
      else if c =? 39 then
        match rest with
        | x :: rest' => if x =? 39 then cons 39 <$> unsubstitute rest' else None
        | [] => None
        end
      else cons c <$> unsubstitute rest
  end.

(** What MySQL reads back from an escaped string: [\z] is a plain [z] and
    [\%] keeps its backslash; the other forms come back as the character
    that was escaped. *)
Definition mysql_read_back (c : N) : str :=
  if c =? 26 then [122] else if c =? 37 then [92; 37] else [c].

(** The number of characters of a text that the table rewrites. *)
Definition rewritten (text : str) : nat :=
  length (filter (λ c, c ∈ dom SQL_BACKSLASHED_CHARS) text).

(** ** pathlib.PurePosixPath

    A pure POSIX path is its root (empty, one slash or two) and the list of
    its components; the constructor drops empty components and single dots. *)

Record PurePosixPath := { root : str; tail : list str }.

Definition sep : N := 47.

(** [s.split('/')] *)
Fixpoint split_sep (s : str) : list str :=
  match s with
  | [] => [[]]
  | c :: s' =>
      if c =? sep then [] :: split_sep s'
      else match split_sep s' with
           | x :: xs => (c :: x) :: xs
           | [] => [[c]]
           end
  end.

(** [s.lstrip('/')] *)
Fixpoint lstrip_sep (s : str) : str :=
  match s with
  | c :: s' => if c =? sep then lstrip_sep s' else s
  | [] => []
  end.

(** Exactly two leading slashes are kept as the root, any other positive
    number of them is one slash. *)
Definition splitroot (part : str) : str * str :=
  match part with
  | c :: _ =>
      if c =? sep then
        let stripped := lstrip_sep part in
        if (length part - length stripped =? 2)%nat
        then ([sep; sep], stripped) else ([sep], stripped)
      else ([], part)
  | [] => ([], part)
  end.

Definition parse_path (s : str) : PurePosixPath :=
  let '(r, rel) := splitroot s in
  {| root := r; tail := filter (λ x, x ≠ [] ∧ x ≠ [46]) (split_sep rel) |}.

(** ['/'.join(parts)] *)
Fixpoint join_sep (parts : list str) : str :=
  match parts with
  | [] => []
  | [x] => x
  | x :: rest => x ++ sep :: join_sep rest
  end.

(** [str(path)] *)
Definition path_str (p : PurePosixPath) : str :=
  match root p ++ join_sep (tail p) with
  | [] => [46]
  | s => s
  end.

(** [path.name]: the last component, empty when there is none. *)
Definition name (p : PurePosixPath) : str := default [] (last (tail p)).

(** Every component of a parsed path is one file name. *)
Definition component (x : str) : Prop := x ≠ [] ∧ x ≠ [46] ∧ sep ∉ x.

(** ** Exceptions and outcomes

    [FileNotFoundError] stands for the instances of that class and of its
    subclasses, which is what the [except] clause of the loader matches;
    [OtherError] stands for the instances of every other class. *)

Inductive exn :=
  | FileNotFoundError (msg : str)
  | ValueError (msg : str)
  | OtherError (cls : str) (msg : str).

(** [isinstance(e, FileNotFoundError)] *)
Definition is_FileNotFoundError (e : exn) : bool :=
  match e with FileNotFoundError _ => true | _ => false end.

Inductive outcome (A : Type) :=
  | Return (a : A)
  | Raise (e : exn).
Arguments Return {A} a.
Arguments Raise {A} e.

(** [path.with_name(n)]: a path without a name has none to replace, and the
    new name must be one component.  Both refusals are a [ValueError]; their
    order and their messages vary between versions of the library and are
    not relied upon. *)
Definition with_name (p : PurePosixPath) (n : str) : outcome PurePosixPath :=
  if decide (name p = []) then Raise (ValueError (py "path has an empty name"))
  else if decide (n = [] ∨ sep ∈ n ∨ n = [46])
       then Raise (ValueError (py "Invalid name"))
       else Return {| root := root p; tail := removelast (tail p) ++ [n] |}.

(** ** The local machine *)

Inductive event :=
  | EvMkdtemp (dir : str)
  | EvWriteBytes (dir entry : str) (contents : bytes)
  | EvConnect (conn : nat) (path : str)
  | EvRowFactory (conn : nat) (factory : str)
  | EvCloseConnection (conn : nat)
  | EvRmtree (dir : str)
  | EvMkstemp (path : str) (mode : N)
  | EvWrite (path : str) (contents : bytes)
  | EvCloseFile (path : str)
  | EvBrowserOpen (url : str)
  | EvSleep (seconds : N)
  | EvRemove (path : str).

Record File := { st_mode : N; contents : bytes }.

Record Connection :=
  { database_path : str; row_factory : option str; closed : bool }.

(** Temporary directories (path to entries), temporary files, the database
    connections of the process and the log of what was done. *)
Record World := {
  tmp_dirs : gmap str (gmap str bytes);
  tmp_files : gmap str File;
  connections : gmap nat Connection;
  trace : list event
}.

Definition set_tmp_dirs (f : gmap str (gmap str bytes) → gmap str (gmap str bytes))
    (w : World) : World :=
  {| tmp_dirs := f (tmp_dirs w); tmp_files := tmp_files w;
     connections := connections w; trace := trace w |}.

Definition set_tmp_files (f : gmap str File → gmap str File) (w : World) : World :=
  {| tmp_dirs := tmp_dirs w; tmp_files := f (tmp_files w);
     connections := connections w; trace := trace w |}.

Definition set_connections (f : gmap nat Connection → gmap nat Connection)
    (w : World) : World :=
  {| tmp_dirs := tmp_dirs w; tmp_files := tmp_files w;
     connections := f (connections w); trace := trace w |}.

Definition log (ev : event) (w : World) : World :=
  {| tmp_dirs := tmp_dirs w; tmp_files := tmp_files w;
     connections := connections w; trace := trace w ++ [ev] |}.

(** What the surroundings decide: whether a local write fails and, when it
    does, how many of the bytes had reached the file before it failed; what
    the browser launcher and the sleep do; and the URL quoting of a path. *)
Record Host := {
  write_fault : str → option exn;
  write_progress : str → nat;
  webbrowser_open : str → outcome bool;
  time_sleep : N → outcome unit;
  pathname2url : str → str
}.

(** The device bridge: [read_file] raises or returns a stream, whose [read]
    raises or returns the bytes.  The loader reads four distinct paths, once
    each, so a function of the path describes any run of the bridge. *)
Record RemoteFile := { read : outcome bytes }.
Record AdbClient := { read_file : PurePosixPath → outcome RemoteFile }.

(** The [sqlite3] module that is passed in: [connect] may raise. *)
Record Sqlite3Module := { connect_fault : str → option exn }.

(** ** Statements as state transformers *)

Definition M (A : Type) : Type := World → outcome A * World.

Definition ret {A} (a : A) : M A := λ w, (Return a, w).
Definition raise {A} (e : exn) : M A := λ w, (Raise e, w).
Definition lift {A} (o : outcome A) : M A := λ w, (o, w).

Definition bind {A B} (m : M A) (k : A → M B) : M B := λ w,
  match m w with
  | (Return a, w') => k a w'
  | (Raise e, w') => (Raise e, w')
  end.

Declare Scope stmt_scope.
Delimit Scope stmt_scope with stmt.
Notation "x <- m ;; k" := (bind m (λ x, k))
  (at level 20, m at level 99, k at level 200, only parsing) : stmt_scope.
Notation "m ;; k" := (bind m (λ _, k))
  (at level 100, k at level 200, only parsing, right associativity) : stmt_scope.
Local Open Scope stmt_scope.

(** [try: m finally: cleanup] *)
Definition try_finally {A} (m : M A) (cleanup : M unit) : M A := λ w,
  match m w with
  | (r, w') =>
      match cleanup w' with
      | (Return _, w'') => (r, w'')
      | (Raise e, w'') => (Raise e, w'')
      end
  end.

(** [with cm as r: body], for a context manager whose exit does not swallow
    exceptions. *)
Definition with_ {R A} (enter : M R) (exit : R → M unit) (body : R → M A) : M A :=
  r <- enter ;; try_finally (body r) (exit r).

(** [try: m except ...: handler else: orelse]; the handler answers [None]
    for an exception no clause matches.  Neither the handler nor the else
    branch is covered by the clauses. *)
Definition try_except_else {A B} (m : M A) (handler : exn → option (M B))
    (orelse : A → M B) : M B := λ w,
  match m w with
  | (Return a, w') => orelse a w'
  | (Raise e, w') =>
      match handler e with
      | Some h => h w'
      | None => (Raise e, w')
      end
  end.

(** [for x in xs: f x] *)
Fixpoint for_ {X} (xs : list X) (f : X → M unit) : M unit :=
  match xs with
  | [] => ret tt
  | x :: rest => f x ;; for_ rest f
  end.

(** *** tempfile, pathlib.Path and sqlite3 *)

(** [TemporaryDirectory()] makes a directory under a name not in use. *)
Definition TemporaryDirectory : M str := λ w,
  let d := fresh (dom (tmp_dirs w)) in
  (Return d, log (EvMkdtemp d) (set_tmp_dirs (insert d ∅) w)).

(** Leaving the block removes the directory and all it holds. *)
Definition TemporaryDirectory_cleanup (d : str) : M unit := λ w,
  (Return tt, log (EvRmtree d) (set_tmp_dirs (delete d) w)).

(** [(dir / entry).write_bytes(b)]: a write that fails leaves the part of
    the bytes that had been written. *)
Definition write_bytes (host : Host) (dir entry : str) (b : bytes) : M unit := λ w,
  match write_fault host (dir ++ sep :: entry) with
  | Some e =>
      match tmp_dirs w !! dir with
      | None => (Raise e, w)
      | Some entries =>
          let written := take (write_progress host (dir ++ sep :: entry)) b in
          (Raise e,
           log (EvWriteBytes dir entry written)
               (set_tmp_dirs (insert dir (<[entry:=written]> entries)) w))
      end
  | None =>
      match tmp_dirs w !! dir with
      | None => (Raise (FileNotFoundError (dir ++ sep :: entry)), w)
      | Some entries =>
          (Return tt,
           log (EvWriteBytes dir entry b)
               (set_tmp_dirs (insert dir (<[entry:=b]> entries)) w))
      end
  end.

(** [sqlite3.connect(path)] *)
Definition sqlite3_connect (sqlite3 : Sqlite3Module) (path : str) : M nat := λ w,
  match connect_fault sqlite3 path with
  | Some e => (Raise e, w)
  | None =>
      let c := fresh (dom (connections w)) in
      (Return c,
       log (EvConnect c path)
           (set_connections
              (insert c {| database_path := path; row_factory := None; closed := false |})
              w))
  end.

(** [connection.row_factory = factory] *)
Definition set_row_factory (c : nat) (factory : str) : M unit := λ w,
  (Return tt,
   log (EvRowFactory c factory)
       (set_connections
          (alter (λ k, {| database_path := database_path k;
                          row_factory := Some factory; closed := closed k |}) c)
          w)).

(** [connection.close()], what [contextlib.closing] calls on exit. *)
Definition connection_close (c : nat) : M unit := λ w,
  (Return tt,
   log (EvCloseConnection c)
       (set_connections
          (alter (λ k, {| database_path := database_path k;
                          row_factory := row_factory k; closed := true |}) c)
          w)).

Definition is_open (w : World) (c : nat) : bool :=
  match connections w !! c with
  | Some k => negb (closed k)
  | None => false
  end.

(** ** The snapshot loader (contrib.py, lines 35-59) *)

Definition suffixes : list str := [py ""; py "-journal"; py "-wal"; py "-shm"].

(** The body of the [for] loop. *)
Definition pull (host : Host) (adb : AdbClient) (database : PurePosixPath)
    (temp_dir : str) (suffix : str) : M unit :=
  remote_file <- lift (with_name database (name database ++ suffix)) ;;
  try_except_else (lift (read_file adb remote_file))
    (λ e, if is_FileNotFoundError e
          then Some (if decide (suffix = py "") then raise e else ret tt)
          else None)
    (λ contents,
       b <- lift (read contents) ;;
       write_bytes host temp_dir (name remote_file) b).

(** The generator is run by [with open_remote_sqlite_database(...) as c:];
    [body] is the block of that statement, which receives the connection
    where the generator yields. *)
Definition open_remote_sqlite_database {A} (host : Host) (adb : AdbClient)
    (database : str) (sqlite3 : Sqlite3Module) (body : nat → M A) : M A :=
  let database := parse_path database in
  with_ TemporaryDirectory TemporaryDirectory_cleanup (λ temp_dir,
    for_ suffixes (pull host adb database temp_dir) ;;
    let db_path := temp_dir ++ sep :: name database in
    with_ (sqlite3_connect sqlite3 db_path) connection_close (λ connection,
      set_row_factory connection (py "sqlite3.Row") ;;
      body connection)).

(** *** What the loop leaves behind *)

(** The events of the loop are writes into the temporary directory. *)
Definition write_event (d : str) (ev : event) : Prop :=
  ∃ entry b, ev = EvWriteBytes d entry b.

(** The loop touches nothing but the temporary directory. *)
Record pulled (d : str) (w w' : World) : Prop := {
  pulled_connections : connections w' = connections w;
  pulled_tmp_files : tmp_files w' = tmp_files w;
  pulled_trace : ∃ evs, trace w' = trace w ++ evs ∧ Forall (write_event d) evs;
  pulled_dir : is_Some (tmp_dirs w !! d) → is_Some (tmp_dirs w' !! d)
}.

(** The entries one iteration adds, read off the device. *)
Definition persist_one (adb : AdbClient) (p : PurePosixPath)
    (entries : gmap str bytes) (suffix : str) : gmap str bytes :=
  match with_name p (name p ++ suffix) with
  | Return f =>
      match read_file adb f with
      | Return c =>
          match read c with
          | Return b => <[name f := b]> entries
          | Raise _ => entries
          end
      | Raise _ => entries
      end
  | Raise _ => entries
  end.

Definition persisted (adb : AdbClient) (p : PurePosixPath) (ss : list str)
    (entries : gmap str bytes) : gmap str bytes :=
  foldl (persist_one adb p) entries ss.

(** ** Strings of the renderer *)

(** *** [sorted] on strings

    Strings compare by code point, lexicographically; a shorter string comes
    before its extensions.  [sorted] returns the elements in ascending order
    and keeps equal elements in their order. *)
Fixpoint str_le (a b : str) : bool :=
  match a, b with
  | [], _ => true
  | _ :: _, [] => false
  | x :: a', y :: b' =>
      if x <? y then true else if y <? x then false else str_le a' b'
  end.

Fixpoint insert_sorted (x : str) (l : list str) : list str :=
  match l with
  | [] => [x]
  | y :: l' => if str_le y x then y :: insert_sorted x l' else x :: l
  end.

Definition sorted (l : list str) : list str := foldl (λ acc x, insert_sorted x acc) [] l.

Definition le_str (a b : str) : Prop := str_le a b = true.

(** *** [str.replace(old, new)]

    Occurrences are taken from the left and do not overlap: after a match
    the scan skips the rest of the matched text.  With an empty [old] the
    new text goes before every character and at the end. *)
Fixpoint starts_with (prefix s : str) : bool :=
  match prefix, s with
  | [], _ => true
  | _ :: _, [] => false
  | a :: prefix', b :: s' => (a =? b) && starts_with prefix' s'
  end.

Fixpoint replace_scan (old new : str) (skip : nat) (s : str) : str :=
  match s with
  | [] => []
  | c :: s' =>
      match skip with
      | S k => replace_scan old new k s'
      | O =>
          if starts_with old s
          then new ++ replace_scan old new (length old - 1) s'
          else c :: replace_scan old new 0 s'
      end
  end.

Definition str_replace (s old new : str) : str :=
  match old with
  | [] => new ++ flat_map (λ c, c :: new) s
  | _ :: _ => replace_scan old new 0 s
  end.

(** *** [json.dumps(list_of_str, indent=n)] (json.encoder) *)

Definition hexdigit (d : N) : N := if d <? 10 then 48 + d else 87 + d.

(** ['{0:04x}'.format(n)] for [n] below [0x10000]. *)
Definition hex4 (n : N) : str :=
  [hexdigit (n / 4096 mod 16); hexdigit (n / 256 mod 16);
   hexdigit (n / 16 mod 16); hexdigit (n mod 16)].

(** [ESCAPE_DCT]: the named escapes, then [\u00XX] for the other control
    characters. *)
Definition ESCAPE_DCT : gmap N str :=
  foldl (λ m i, match m !! i with
                | Some _ => m
                | None => <[i := [92; 117] ++ hex4 i]> m
                end)
        (list_to_map
           [ (92, [92; 92]); (34, [92; 34]); (8, py "\b"); (12, py "\f");
             (10, py "\n"); (13, py "\r"); (9, py "\t") ])
        (N.of_nat <$> seq 0 32).

(** [ESCAPE_ASCII]: the backslash, the double quote and everything outside
    the range from the space to the tilde. *)
Definition ESCAPE_ASCII (c : N) : bool :=
  (c =? 92) || (c =? 34) || negb ((32 <=? c) && (c <=? 126)).

Definition escape_replace (c : N) : str :=
  match ESCAPE_DCT !! c with
  | Some r => r
  | None =>
      if c <? 0x10000 then [92; 117] ++ hex4 c
      else
        let n := c - 0x10000 in
        let s1 := N.lor 0xd800 (N.land (N.shiftr n 10) 0x3ff) in
        let s2 := N.lor 0xdc00 (N.land n 0x3ff) in
        [92; 117] ++ hex4 s1 ++ [92; 117] ++ hex4 s2
  end.

Definition json_char (c : N) : str :=
  if ESCAPE_ASCII c then escape_replace c else [c].

Definition py_encode_basestring_ascii (s : str) : str :=
  [34] ++ flat_map json_char s ++ [34].

Definition json_dumps (lst : list str) (indent : nat) : str :=
  match lst with
  | [] => py "[]"
  | value :: rest =>
      let newline_indent := 10 :: replicate indent 32 in
      let separator := 44 :: newline_indent in
      py "[" ++ newline_indent ++ py_encode_basestring_ascii value
        ++ flat_map (λ value, separator ++ py_encode_basestring_ascii value) rest
        ++ [10] ++ py "]"
  end.

(** The layout of an array of already encoded elements, with the closing
    bracket indented by [closing] spaces; [json.dumps] is the case
    [closing = 0]. *)
Definition array_layout (indent closing : nat) (elements : list str) : str :=
  match elements with
  | [] => [91] ++ replicate closing 32 ++ [93]
  | x :: rest =>
      [91] ++ 10 :: replicate indent 32 ++ x
        ++ flat_map (λ y, 44 :: 10 :: replicate indent 32 ++ y) rest
        ++ [10] ++ replicate closing 32 ++ [93]
  end.

(** What the replacement does to one character and to a string. *)
Definition indent_bracket (c : N) : str :=
  if c =? 93 then py "        ]" else [c].

(** The number of closing brackets of a string. *)
Definition brackets (s : str) : nat := length (filter (λ c, c = 93) s).

(** The characters from the space to the tilde, and those and the newline. *)
Definition printable (c : N) : bool := (32 <=? c) && (c <=? 126).
Definition printable_or_newline (c : N) : bool := (c =? 10) || printable c.

(** The number of newline characters of a string. *)
Definition newlines (s : str) : nat := length (filter (λ c, c = 10) s).

(** *** [str.encode('utf-8')] *)

Definition utf8_char (c : N) : outcome bytes :=
  if c <? 0x80 then Return [c]
  else if c <? 0x800 then
    Return [N.lor 0xC0 (N.shiftr c 6); N.lor 0x80 (N.land c 0x3F)]
  else if c <? 0x10000 then
    if (0xD800 <=? c) && (c <=? 0xDFFF)
    then Raise (OtherError (py "UnicodeEncodeError") (py "surrogates not allowed"))
    else Return [N.lor 0xE0 (N.shiftr c 12);
                 N.lor 0x80 (N.land (N.shiftr c 6) 0x3F);
                 N.lor 0x80 (N.land c 0x3F)]
  else
    Return [N.lor 0xF0 (N.shiftr c 18);
            N.lor 0x80 (N.land (N.shiftr c 12) 0x3F);
            N.lor 0x80 (N.land (N.shiftr c 6) 0x3F);
            N.lor 0x80 (N.land c 0x3F)].

Fixpoint encode_utf8 (s : str) : outcome bytes :=
  match s with
  | [] => Return []
  | c :: rest =>
      match utf8_char c, encode_utf8 rest with
      | Return b, Return bs => Return (b ++ bs)
      | Raise e, _ => Raise e
      | _, Raise e => Raise e
      end
  end.

(** ** Temporary files, the browser and the clock *)

Definition S_IRUSR : N := 256.
Definition S_IWUSR : N := 128.
(** The permission bits of the group and of the others, [0o077]. *)
Definition S_IRWXG_IRWXO : N := 63.

(** [NamedTemporaryFile(delete=..., suffix=...)] makes, as [mkstemp] does, a
    file with mode [0o600] under a name not in use that ends with the
    suffix; the result is the file's name. *)
Definition mkstemp_name (suffix : str) (w : World) : str :=
  let stems : gset str :=
    set_map (λ x : str, take (length x - length suffix) x) (dom (tmp_files w)) in
  fresh stems ++ suffix.

Definition NamedTemporaryFile (suffix : str) : M str := λ w,
  let path := mkstemp_name suffix w in
  (Return path,
   log (EvMkstemp path (N.lor S_IRUSR S_IWUSR))
       (set_tmp_files
          (insert path {| st_mode := N.lor S_IRUSR S_IWUSR; contents := [] |}) w)).

(** Leaving the block closes the file, and removes it only with
    [delete=True]. *)
Definition NamedTemporaryFile_exit (delete : bool) (path : str) : M unit := λ w,
  (Return tt,
   log (EvCloseFile path)
       (if delete then set_tmp_files (base.delete path) w else w)).

(** [file.write(b)]: a write that fails leaves the part of the bytes that
    had been written. *)
Definition file_write (host : Host) (path : str) (b : bytes) : M unit := λ w,
  match write_fault host path with
  | Some e =>
      let written := take (write_progress host path) b in
      (Raise e,
       log (EvWrite path written)
           (set_tmp_files
              (alter (λ f, {| st_mode := st_mode f; contents := contents f ++ written |})
                     path) w))
  | None =>
      (Return tt,
       log (EvWrite path b)
           (set_tmp_files
              (alter (λ f, {| st_mode := st_mode f; contents := contents f ++ b |})
                     path) w))
  end.

(** [os.remove(path)] *)
Definition os_remove (path : str) : M unit := λ w,
  match tmp_files w !! path with
  | None => (Raise (FileNotFoundError path), w)
  | Some _ => (Return tt, log (EvRemove path) (set_tmp_files (delete path) w))
  end.

Definition webbrowser_open_ (host : Host) (url : str) : M bool := λ w,
  (webbrowser_open host url, log (EvBrowserOpen url) w).

Definition time_sleep_ (host : Host) (seconds : N) : M unit := λ w,
  (time_sleep host seconds, log (EvSleep seconds) w).

(** ** The disclosure renderer (contrib.py, lines 62-231) *)

(** The page template is a constant of the module; what matters of it is the
    text before and the text after its one [%s]. *)
Record Template := { page_head : str; page_tail : str }.

Section Renderer.
Context {OTPAccount : Type} (as_uri : OTPAccount → bool → str).

(** The argument of the [%] operator. *)
Definition accounts_literal (accounts : list OTPAccount)
    (prepend_issuer : bool) : str :=
  str_replace
    (json_dumps (sorted (map (λ a, as_uri a prepend_issuer) accounts)) 12)
    (py "]") (py "        ]").

Definition display_qr_codes (host : Host) (template : Template)
    (accounts : list OTPAccount) (prepend_issuer : bool) : M unit :=
  let accounts_html :=
    page_head template ++ accounts_literal accounts prepend_issuer
      ++ page_tail template in
  temp_html_file <-
    with_ (NamedTemporaryFile (py ".html")) (NamedTemporaryFile_exit false)
      (λ temp_html_file,
         b <- lift (encode_utf8 accounts_html) ;;
         file_write host temp_html_file b ;;
         ret temp_html_file) ;;
  try_finally
    (webbrowser_open_ host (py "file:" ++ pathname2url host temp_html_file) ;;
     time_sleep_ host 10)
    (os_remove temp_html_file).
End Renderer.

(** ** A concrete setting for the examples

    A device that holds one database of three bytes and no side file, a
    machine on which nothing fails, and the world before the call. *)

Definition no_fault_host : Host :=
  {| write_fault := λ _, None;
     write_progress := λ _, 0%nat;
     webbrowser_open := λ _, Return true;
     time_sleep := λ _, Return tt;
     pathname2url := λ p, p |}.

Definition primary_only_adb : AdbClient :=
  {| read_file := λ p,
       if decide (path_str p = py "/data/accounts.db")
       then Return {| read := Return [83; 81; 76] |}
       else Raise (FileNotFoundError (path_str p)) |}.

Definition plain_sqlite3 : Sqlite3Module := {| connect_fault := λ _, None |}.

Definition empty_world : World :=
  {| tmp_dirs := ∅; tmp_files := ∅; connections := ∅; trace := [] |}.

(** A machine whose disk is full: every local write fails, with nothing
    written. *)
Definition full_disk_host : Host :=
  {| write_fault := λ _, Some (OtherError (py "OSError") (py "No space left on device"));
     write_progress := λ _, 0%nat;
     webbrowser_open := λ _, Return true;
     time_sleep := λ _, Return tt;
     pathname2url := λ p, p |}.

(** A machine on which the write of a temporary file fails after six
    bytes. *)
Definition interrupted_write_host : Host :=
  {| write_fault := λ _, Some (OtherError (py "OSError") (py "Input/output error"));
     write_progress := λ _, 6%nat;
     webbrowser_open := λ _, Return true;
     time_sleep := λ _, Return tt;
     pathname2url := λ p, p |}.

(** Accounts that are their own URI, and a short page. *)
Definition uri_account (a : str) (prepend_issuer : bool) : str := a.

Definition short_page : Template :=
  {| page_head := py "const ACCOUNTS = "; page_tail := py ";" |}.

(** A device that holds the database and its three side files, each with
    its own bytes. *)
Definition full_adb : AdbClient :=
  {| read_file := λ p,
       if decide (path_str p = py "/data/accounts.db")
       then Return {| read := Return [83; 81; 76] |}
       else if decide (path_str p = py "/data/accounts.db-journal")
       then Return {| read := Return [1] |}
       else if decide (path_str p = py "/data/accounts.db-wal")
       then Return {| read := Return [2; 2] |}
       else if decide (path_str p = py "/data/accounts.db-shm")
       then Return {| read := Return [3; 3; 3] |}
       else Raise (FileNotFoundError (path_str p)) |}.

(** A machine on which the local write of the write-ahead log fails with a
    not-found error. *)
Definition wal_fault_host : Host :=
  {| write_fault := λ path,
       if decide (path = fresh (dom (tmp_dirs empty_world)) ++ py "/accounts.db-wal")
       then Some (FileNotFoundError path) else None;
     write_progress := λ _, 0%nat;
     webbrowser_open := λ _, Return true;
     time_sleep := λ _, Return tt;
     pathname2url := λ p, p |}.

(** An [sqlite3] module whose [connect] always raises. *)
Definition failing_sqlite3 : Sqlite3Module :=
  {| connect_fault := λ _, Some (OtherError (py "sqlite3.OperationalError")
                                   (py "unable to open database file")) |}.

(** * Properties *)

(** ** The escaper *)

Lemma translate_app table (a b : str) :
  translate table (a ++ b) = translate table a ++ translate table b.
Proof. unfold translate. apply flat_map_app. Qed.

Lemma SQL_BACKSLASHED_CHARS_lookup (c : N) :
  default [c] (SQL_BACKSLASHED_CHARS !! c) = spec_substitution c.
Proof.
  unfold SQL_BACKSLASHED_CHARS, spec_substitution.
  cbn [list_to_map foldr uncurry fst snd].
  repeat match goal with
  | |- context [<[?k:=_]> _ !! c] =>
      destruct (N.eqb_spec c k) as [->|?];
      [ rewrite lookup_insert_eq; reflexivity
      | rewrite (lookup_insert_ne _ k c) by congruence ]
  end.
  rewrite lookup_empty. reflexivity.
Qed.

Lemma SQL_BACKSLASHED_CHARS_dom :
  dom SQL_BACKSLASHED_CHARS = list_to_set [0; 8; 9; 26; 10; 13; 92; 37; 39].
Proof.
  unfold SQL_BACKSLASHED_CHARS. cbn [list_to_map foldr uncurry fst snd list_to_set].
  rewrite !dom_insert_L, dom_empty_L. set_solver.
Qed.

Lemma escape_sql_string_flat_map (text : str) :
  escape_sql_string text = [39] ++ flat_map spec_substitution text ++ [39].
Proof.
  unfold escape_sql_string, translate. do 2 f_equal.
  induction text as [|c text IH]; [reflexivity|].
  cbn [flat_map]. rewrite IH, SQL_BACKSLASHED_CHARS_lookup. reflexivity.
Qed.

(** C6. For every input string [escape_sql_string] returns (it is a total
    function) the input between two single quotes after the per-character
    substitutions of the table: NUL, backspace, tab, substitute, newline,
    carriage return, backslash and percent get a backslash form, the single
    quote is doubled, every other character is passed through; the table has
    these nine keys and no others, and only its keys are changed. *)
Theorem escape_sql_string_substitutions (text : str) :
  escape_sql_string text = [39] ++ flat_map spec_substitution text ++ [39]
  ∧ dom SQL_BACKSLASHED_CHARS = list_to_set [0; 8; 9; 26; 10; 13; 92; 37; 39]
  ∧ ∀ c, spec_substitution c = [c] ↔ c ∉ dom SQL_BACKSLASHED_CHARS.
Proof.
  split; [|split].
  - apply escape_sql_string_flat_map.
  - apply SQL_BACKSLASHED_CHARS_dom.
  - intros c. rewrite SQL_BACKSLASHED_CHARS_dom. unfold spec_substitution.
    repeat match goal with
    | |- context [c =? ?k] =>
        destruct (N.eqb_spec c k) as [->|?];
        [split; [discriminate|intros Hn; exfalso; apply Hn; set_solver]|]
    end.
    split; [intros _|reflexivity].
    rewrite elem_of_list_to_set. intros Hin.
    repeat (apply elem_of_cons in Hin as [?|Hin]; [contradiction|]).
    by apply elem_of_nil in Hin.
Qed.

Lemma sqlite_literal_body_escaped (text : str) :
  sqlite_literal_body (flat_map spec_substitution text ++ [39])
  = Some (flat_map sqlite_read_back text).
Proof.
  induction text as [|c text IH]; [reflexivity|].
  cbn [flat_map]. rewrite <- app_assoc.
  unfold sqlite_read_back at 1. unfold spec_substitution at 1 3.
  repeat match goal with
  | |- context [c =? ?k] =>
      destruct (N.eqb_spec c k) as [->|?];
      [cbn -[flat_map spec_substitution]; rewrite IH; reflexivity|]
  end.
  cbn -[flat_map spec_substitution].
  destruct (N.eqb_spec c 39); [contradiction|]. rewrite IH. reflexivity.
Qed.

Lemma sqlite_literal_value_escaped (text : str) :
  sqlite_literal_value (escape_sql_string text)
  = Some (flat_map sqlite_read_back text).
Proof.
  rewrite escape_sql_string_flat_map.
  cbn [app sqlite_literal_value N.eqb Pos.eqb]. apply sqlite_literal_body_escaped.
Qed.

(** Strings without a backslashed character are read back unchanged. *)
Lemma sqlite_roundtrip_plain (text : str) :
  forallb (λ c, negb (backslashed c)) text = true →
  sqlite_literal_value (escape_sql_string text) = Some text.
Proof.
  intros H. rewrite sqlite_literal_value_escaped. f_equal.
  induction text as [|c text IH]; [reflexivity|].
  cbn [forallb] in H. apply andb_prop in H as [Hc H].
  cbn [flat_map]. rewrite (IH H).
  enough (sqlite_read_back c = [c]) as -> by reflexivity.
  apply negb_true_iff, bool_decide_eq_false in Hc.
  unfold sqlite_read_back, spec_substitution.
  repeat match goal with
  | |- context [c =? ?k] =>
      destruct (N.eqb_spec c k) as [->|?]; [first [reflexivity|set_solver]|]
  end.
  reflexivity.
Qed.

(** C5, evaluated at the one-character string [%]: the escaper writes a
    backslash before the percent sign, and both the SQLite reading and the
    MySQL reading of that literal are the two characters backslash and
    percent, not the string that was escaped. *)
Theorem escape_sql_string_percent_read_back :
  escape_sql_string [37] = [39; 92; 37; 39]
  ∧ sqlite_literal_value (escape_sql_string [37]) = Some [92; 37]
  ∧ mysql_literal_value (escape_sql_string [37]) = Some [92; 37]
  ∧ sqlite_literal_value (escape_sql_string [37]) ≠ Some [37].
Proof. repeat split; try reflexivity. vm_compute. discriminate. Qed.

(** ** Paths *)

Lemma split_sep_nonempty (s : str) : split_sep s ≠ [].
Proof.
  destruct s as [|c s]; [discriminate|]. cbn [split_sep].
  destruct (c =? sep); [discriminate|]. destruct (split_sep s); discriminate.
Qed.

Lemma split_sep_no_sep (s : str) : Forall (λ x, sep ∉ x) (split_sep s).
Proof.
  induction s as [|c s IH]; cbn [split_sep].
  - repeat constructor. apply not_elem_of_nil.
  - destruct (N.eqb_spec c sep) as [->|Hc].
    + constructor; [apply not_elem_of_nil|exact IH].
    + destruct (split_sep s) as [|x xs]; inversion IH; subst.
      * repeat constructor. rewrite list_elem_of_singleton. congruence.
      * constructor; [|assumption].
        rewrite elem_of_cons. intros [?|?]; [congruence|contradiction].
Qed.

Lemma parse_path_components (s : str) : Forall component (tail (parse_path s)).
Proof.
  unfold parse_path. destruct (splitroot s) as [r rel]. cbn [tail].
  apply Forall_forall. intros x Hx.
  apply list_elem_of_filter in Hx as [[H1 H2] Hx].
  repeat split; [assumption..|].
  pose proof (split_sep_no_sep rel) as Hs.
  rewrite Forall_forall in Hs. by apply Hs.
Qed.

Lemma name_last (p : PurePosixPath) :
  name p ≠ [] → tail p = removelast (tail p) ++ [name p].
Proof.
  unfold name. intros H.
  destruct (tail p) as [|x t] eqn:E using rev_ind; [done|].
  rewrite last_snoc. cbn [default]. by rewrite removelast_last.
Qed.




(** A path without a name has no sibling. *)
Lemma with_name_empty_name (p : PurePosixPath) (n : str) :
  name p = [] → with_name p n = Raise (ValueError (py "path has an empty name")).
Proof. intros H. unfold with_name. by rewrite decide_True. Qed.

Lemma with_name_append (p : PurePosixPath) (s : str) :
  component (name p) → sep ∉ s →
  with_name p (name p ++ s)
  = Return {| root := root p; tail := removelast (tail p) ++ [name p ++ s] |}.
Proof.
  intros (Hn & Hdot & Hsep) Hs. unfold with_name.
  rewrite decide_False by assumption.
  rewrite decide_False; [reflexivity|].
  intros [H|[H|H]].
  - apply app_eq_nil in H as [? _]. contradiction.
  - apply elem_of_app in H as [?|?]; contradiction.
  - destruct (name p) as [|c [|c' n]]; [contradiction| |discriminate].
    cbn in H. injection H as -> _. contradiction.
Qed.

Lemma parse_path_name_component (database : str) :
  name (parse_path database) ≠ [] → component (name (parse_path database)).
Proof.
  intros H. pose proof (parse_path_components database) as Hall.
  rewrite (name_last _ H) in Hall. apply Forall_app in Hall as [_ Hall].
  by inversion Hall.
Qed.

Lemma suffixes_no_sep (s : str) : s ∈ suffixes → sep ∉ s.
Proof.
  unfold suffixes. intros H.
  repeat (apply elem_of_cons in H as [->|H];
          [apply (bool_decide_unpack _); vm_compute; exact I|]).
  by apply elem_of_nil in H.
Qed.



(** The root directory has no final component and names no file: for it
    [with_name] raises [ValueError], and so does the loader. *)
Lemma root_path_has_no_name :
  name (parse_path (py "/")) = []
  ∧ (∃ msg, with_name (parse_path (py "/")) (name (parse_path (py "/")) ++ py "-wal")
            = Raise (ValueError msg))
  ∧ (∃ msg, fst (open_remote_sqlite_database no_fault_host primary_only_adb (py "/")
                   plain_sqlite3 (λ _, ret tt) empty_world)
            = Raise (ValueError msg)).
Proof. split; [|split]; [reflexivity|eexists..]; vm_compute; reflexivity. Qed.

(** ** The snapshot loader *)

Ltac world_simpl :=
  cbn [fst snd TemporaryDirectory_cleanup connection_close set_row_factory
       log set_tmp_dirs set_connections set_tmp_files
       tmp_dirs tmp_files connections trace].

Lemma for_app {X} (xs ys : list X) (f : X → M unit) (w : World) :
  for_ (xs ++ ys) f w = (for_ xs f ;; for_ ys f) w.
Proof.
  revert w. induction xs as [|x xs IH]; intros w; [reflexivity|].
  cbn [app for_]. unfold bind in *.
  destruct (f x w) as [[[]|e] w1]; [|reflexivity]. apply IH.
Qed.

(** The loop stops at the first iteration that raises. *)
Lemma for_raise {X} (pre post : list X) (x : X) (f : X → M unit) e w w1 w2 :
  for_ pre f w = (Return tt, w1) → f x w1 = (Raise e, w2) →
  for_ (pre ++ x :: post) f w = (Raise e, w2).
Proof.
  intros Hpre Hx. rewrite for_app. unfold bind. rewrite Hpre.
  cbn [for_]. unfold bind. by rewrite Hx.
Qed.

(** The loader, step by step: the directory is made, the loop runs, the
    connection is opened and configured, the block runs, and on the way out
    the connection is closed and the directory removed. *)
Lemma open_remote_sqlite_database_run {A} host adb database sqlite3
    (body : nat → M A) (w : World) :
  let p := parse_path database in
  let d := fresh (dom (tmp_dirs w)) in
  let w0 := log (EvMkdtemp d) (set_tmp_dirs (insert d ∅) w) in
  open_remote_sqlite_database host adb database sqlite3 body w =
  match for_ suffixes (pull host adb p d) w0 with
  | (Raise e, w1) => (Raise e, snd (TemporaryDirectory_cleanup d w1))
  | (Return _, w1) =>
      match sqlite3_connect sqlite3 (d ++ sep :: name p) w1 with
      | (Raise e, w2) => (Raise e, snd (TemporaryDirectory_cleanup d w2))
      | (Return c, w2) =>
          let wb := snd (set_row_factory c (py "sqlite3.Row") w2) in
          (fst (body c wb),
           snd (TemporaryDirectory_cleanup d
                  (snd (connection_close c (snd (body c wb))))))
      end
  end.
Proof.
  intros p d w0.
  unfold open_remote_sqlite_database, with_, bind at 1, TemporaryDirectory at 1.
  fold p d w0. unfold try_finally at 1, bind at 1.
  destruct (for_ suffixes (pull host adb p d) w0) as [[[]|e] w1]; [|reflexivity].
  unfold bind at 1.
  destruct (sqlite3_connect sqlite3 (d ++ sep :: name p) w1) as [[c|e] w2];
    [|reflexivity].
  unfold try_finally at 1, bind at 1. cbn [set_row_factory snd].
  destruct (body c _) as [r w3]. reflexivity.
Qed.

Section Pull.
Context (host : Host) (adb : AdbClient) (p : PurePosixPath) (d : str).

Lemma pull_not_found_primary f e w :
  with_name p (name p ++ py "") = Return f →
  read_file adb f = Raise e → is_FileNotFoundError e = true →
  pull host adb p d (py "") w = (Raise e, w).
Proof.
  intros Hf Hr He. unfold pull, bind, lift, try_except_else.
  by rewrite Hf, Hr, He.
Qed.

Lemma pull_not_found_side s f e w :
  s ≠ py "" → with_name p (name p ++ s) = Return f →
  read_file adb f = Raise e → is_FileNotFoundError e = true →
  pull host adb p d s w = (Return tt, w).
Proof.
  intros Hs Hf Hr He. unfold pull, bind, lift, try_except_else.
  rewrite Hf, Hr, He. by rewrite decide_False.
Qed.

Lemma pull_other_failure s f e w :
  with_name p (name p ++ s) = Return f →
  read_file adb f = Raise e → is_FileNotFoundError e = false →
  pull host adb p d s w = (Raise e, w).
Proof.
  intros Hf Hr He. unfold pull, bind, lift, try_except_else.
  by rewrite Hf, Hr, He.
Qed.

(** A failure of the stream's [read] is outside the [try] clause. *)
Lemma pull_read_failure s f c e w :
  with_name p (name p ++ s) = Return f →
  read_file adb f = Return c → read c = Raise e →
  pull host adb p d s w = (Raise e, w).
Proof.
  intros Hf Hr He. unfold pull, bind, lift, try_except_else.
  by rewrite Hf, Hr, He.
Qed.

Lemma pull_write s f c b w :
  with_name p (name p ++ s) = Return f →
  read_file adb f = Return c → read c = Return b →
  pull host adb p d s w = write_bytes host d (name f) b w.
Proof.
  intros Hf Hr Hb. unfold pull, bind, lift, try_except_else.
  by rewrite Hf, Hr, Hb.
Qed.
End Pull.

Lemma loop_raise_propagates {A} host adb database sqlite3 (body : nat → M A) w e w1 :
  for_ suffixes (pull host adb (parse_path database) (fresh (dom (tmp_dirs w))))
       (log (EvMkdtemp (fresh (dom (tmp_dirs w))))
            (set_tmp_dirs (insert (fresh (dom (tmp_dirs w))) ∅) w))
    = (Raise e, w1) →
  fst (open_remote_sqlite_database host adb database sqlite3 body w) = Raise e.
Proof. intros H. rewrite open_remote_sqlite_database_run. cbv zeta. by rewrite H. Qed.

(** C1. Let [f] be the remote path the loader computes for one of the four
    suffixes.  If [f] is the primary file and reading it raises a not-found
    failure, the loader raises that same failure.  If [f] is a side file and
    reading it raises a not-found failure, the iteration changes nothing and
    the loop goes on with the next file.  A failure of any other class, from
    [read_file] or from the stream's [read], is raised by the loader as soon
    as the loop reaches that file. *)
Theorem read_failures {A} host adb database sqlite3 (body : nat → M A)
    (w : World) (s : str) (f : PurePosixPath) :
  let p := parse_path database in
  let d := fresh (dom (tmp_dirs w)) in
  let w0 := log (EvMkdtemp d) (set_tmp_dirs (insert d ∅) w) in
  s ∈ suffixes →
  with_name p (name p ++ s) = Return f →
  (∀ e, s = py "" → read_file adb f = Raise e → is_FileNotFoundError e = true →
        fst (open_remote_sqlite_database host adb database sqlite3 body w) = Raise e)
  ∧ (∀ e, s ≠ py "" → read_file adb f = Raise e → is_FileNotFoundError e = true →
          ∀ rest w1, for_ (s :: rest) (pull host adb p d) w1
                     = for_ rest (pull host adb p d) w1)
  ∧ (∀ e pre post w1,
        suffixes = pre ++ s :: post →
        for_ pre (pull host adb p d) w0 = (Return tt, w1) →
        (read_file adb f = Raise e ∧ is_FileNotFoundError e = false)
        ∨ (∃ c, read_file adb f = Return c ∧ read c = Raise e) →
        fst (open_remote_sqlite_database host adb database sqlite3 body w) = Raise e).
Proof.
  intros p d w0 Hs Hf. repeat split.
  - intros e -> Hr He. apply (loop_raise_propagates _ _ _ _ _ _ _ w0).
    fold p d w0. apply (for_raise [] _ (py "") _ e w0 w0 w0); [reflexivity|].
    by eapply pull_not_found_primary.
  - intros e Hne Hr He rest w1. cbn [for_]. unfold bind.
    by rewrite (pull_not_found_side host adb p d s f e w1).
  - intros e pre post w1 Hsplit Hpre Hcase.
    apply (loop_raise_propagates _ _ _ _ _ _ _ w1). fold p d w0.
    rewrite Hsplit. eapply for_raise; [exact Hpre|].
    destruct Hcase as [[Hr He]|(c & Hr & He)].
    + by eapply pull_other_failure.
    + by eapply pull_read_failure.
Qed.

Lemma pulled_refl d w : pulled d w w.
Proof.
  split; [reflexivity..| |done]. exists []. by rewrite app_nil_r.
Qed.

Lemma pulled_trans d w1 w2 w3 : pulled d w1 w2 → pulled d w2 w3 → pulled d w1 w3.
Proof.
  intros [C1 F1 (e1 & T1 & A1) D1] [C2 F2 (e2 & T2 & A2) D2].
  split; [congruence..| |auto].
  exists (e1 ++ e2). rewrite T2, T1, app_assoc. split; [done|].
  by apply Forall_app.
Qed.

Lemma write_bytes_pulled host d entry b w r w' :
  write_bytes host d entry b w = (r, w') → pulled d w w'.
Proof.
  unfold write_bytes.
  destruct (write_fault host _); destruct (tmp_dirs w !! d) as [entries|] eqn:E;
    cbv zeta; intros [= _ <-]; try apply pulled_refl;
    (split; [reflexivity..| |]).
  all: try (eexists [_]; split; [reflexivity|]; repeat constructor; by eexists _, _).
  all: intros _; cbn; rewrite lookup_insert_eq; by eexists.
Qed.

Lemma pull_pulled host adb p d s w r w' :
  pull host adb p d s w = (r, w') → pulled d w w'.
Proof.
  unfold pull, bind, lift, try_except_else.
  destruct (with_name p (name p ++ s)) as [f|e].
  2: { intros [= _ <-]. apply pulled_refl. }
  destruct (read_file adb f) as [c|e].
  - destruct (read c) as [b|e]; [apply write_bytes_pulled|].
    intros [= _ <-]. apply pulled_refl.
  - destruct (is_FileNotFoundError e); [destruct (decide (s = py ""))|];
      intros [= _ <-]; apply pulled_refl.
Qed.

Lemma loop_pulled host adb p d ss w r w' :
  for_ ss (pull host adb p d) w = (r, w') → pulled d w w'.
Proof.
  revert w. induction ss as [|s ss IH]; intros w.
  - intros [= _ <-]. apply pulled_refl.
  - cbn [for_]. unfold bind.
    destruct (pull host adb p d s w) as [[[]|e] w1] eqn:E.
    + intros H. eapply pulled_trans; [by eapply pull_pulled|by apply IH].
    + intros [= _ <-]. by eapply pull_pulled.
Qed.

(** C2. Whatever the outcome of the loader's block, the temporary directory
    is gone afterwards.  Either the statement's block was entered with an
    open connection and an existing directory, and then the last two things
    done after the block, whether it returned or raised, are closing that
    connection and removing the directory, in this order; or the loader
    raised before any connection was opened, and the last thing done is the
    removal of the directory. *)
Theorem scoped_release {A} host adb database sqlite3 (body : nat → M A) (w : World) :
  let d := fresh (dom (tmp_dirs w)) in
  let r := fst (open_remote_sqlite_database host adb database sqlite3 body w) in
  let w' := snd (open_remote_sqlite_database host adb database sqlite3 body w) in
  tmp_dirs w' !! d = None
  ∧ ((∃ c wb evs,
        r = fst (body c wb)
        ∧ is_Some (tmp_dirs wb !! d)
        ∧ is_open wb c = true
        ∧ trace wb = trace w ++ EvMkdtemp d :: evs
                       ++ [EvConnect c (d ++ sep :: name (parse_path database));
                           EvRowFactory c (py "sqlite3.Row")]
        ∧ Forall (write_event d) evs
        ∧ trace w' = trace (snd (body c wb)) ++ [EvCloseConnection c; EvRmtree d]
        ∧ is_open w' c = false)
     ∨ (∃ e evs,
        r = Raise e
        ∧ connections w' = connections w
        ∧ trace w' = trace w ++ EvMkdtemp d :: evs ++ [EvRmtree d]
        ∧ Forall (write_event d) evs)).
Proof.
  intros d r w'. subst r w'. rewrite open_remote_sqlite_database_run.
  cbv zeta. fold d.
  set (w0 := log (EvMkdtemp d) (set_tmp_dirs (insert d ∅) w)).
  destruct (for_ suffixes _ w0) as [[[]|e] w1] eqn:Hloop;
    apply loop_pulled in Hloop as [HC HF (evs & HT & Hev) HD].
  2: { split; [cbn; apply lookup_delete_eq|]. right. exists e, evs.
       cbn. rewrite HT, HC. cbn. by rewrite <- !app_assoc. }
  unfold sqlite3_connect.
  destruct (connect_fault sqlite3 _) as [e|].
  { split; [cbn; apply lookup_delete_eq|]. right. exists e, evs.
    cbn. rewrite HT, HC. cbn. by rewrite <- !app_assoc. }
  set (c := fresh (dom (connections w1))).
  split; [cbn; apply lookup_delete_eq|]. left.
  eexists c, _, evs. split; [reflexivity|]. repeat split.
  - cbn. apply HD. subst w0. cbn. rewrite lookup_insert_eq. by eexists.
  - unfold is_open. cbn. by rewrite lookup_alter_eq, lookup_insert_eq.
  - cbn. rewrite HT. cbn. by rewrite <- !app_assoc.
  - exact Hev.
  - cbn. by rewrite <- app_assoc.
  - unfold is_open. cbn. rewrite lookup_alter_eq.
    by destruct (connections _ !! c).
Qed.

Lemma with_name_name p n f : with_name p n = Return f → name f = n.
Proof.
  unfold with_name. repeat case_decide; try discriminate.
  intros [= <-]. unfold name. cbn [tail]. by rewrite last_snoc.
Qed.

Lemma with_name_same (p : PurePosixPath) :
  component (name p) → with_name p (name p ++ py "") = Return p.
Proof.
  intros Hc. rewrite with_name_append; [|done|apply not_elem_of_nil].
  change (py "") with (@nil N). rewrite app_nil_r, <- name_last by apply Hc.
  by destruct p.
Qed.

Lemma pull_persist host adb p d s w w' entries :
  tmp_dirs w !! d = Some entries →
  pull host adb p d s w = (Return tt, w') →
  tmp_dirs w' !! d = Some (persist_one adb p entries s).
Proof.
  intros Hd. unfold pull, persist_one, bind, lift, try_except_else.
  destruct (with_name p (name p ++ s)) as [f|e]; [|discriminate].
  destruct (read_file adb f) as [c|e].
  - destruct (read c) as [b|e]; [|discriminate].
    unfold write_bytes. rewrite Hd.
    destruct (write_fault host _); [discriminate|].
    intros [= <-]. cbn. apply lookup_insert_eq.
  - destruct (is_FileNotFoundError e); [|discriminate].
    destruct (decide (s = py "")); [discriminate|]. by intros [= <-].
Qed.

Lemma loop_persist host adb p d ss w w' entries :
  tmp_dirs w !! d = Some entries →
  for_ ss (pull host adb p d) w = (Return tt, w') →
  tmp_dirs w' !! d = Some (persisted adb p ss entries).
Proof.
  revert w entries. induction ss as [|s ss IH]; intros w entries Hd.
  - by intros [= <-].
  - cbn [for_]. unfold bind.
    destruct (pull host adb p d s w) as [[[]|e] w1] eqn:E; [|discriminate].
    intros H. eapply (IH w1); [|exact H]. by eapply pull_persist.
Qed.

(** Iterations for other suffixes leave the entry of a suffix alone. *)
Lemma persisted_other adb p ss entries s :
  s ∉ ss → persisted adb p ss entries !! (name p ++ s) = entries !! (name p ++ s).
Proof.
  revert entries. induction ss as [|s' ss IH]; intros entries Hs; [reflexivity|].
  apply not_elem_of_cons in Hs as [Hne Hs].
  unfold persisted in *. cbn [foldl]. rewrite IH by exact Hs.
  unfold persist_one.
  destruct (with_name p (name p ++ s')) as [f|] eqn:Hf; [|reflexivity].
  destruct (read_file adb f) as [c|]; [|reflexivity].
  destruct (read c); [|reflexivity].
  apply with_name_name in Hf. rewrite Hf.
  apply lookup_insert_ne. intros H. by apply app_inv_head in H.
Qed.

Lemma persisted_lookup adb p ss entries s f c b :
  NoDup ss → s ∈ ss →
  with_name p (name p ++ s) = Return f →
  read_file adb f = Return c → read c = Return b →
  persisted adb p ss entries !! name f = Some b.
Proof.
  intros Hnd Hs Hf Hc Hb. rewrite (with_name_name _ _ _ Hf).
  revert entries Hs. induction Hnd as [|s' ss Hnotin Hnd IH]; intros entries Hs.
  - by apply elem_of_nil in Hs.
  - apply elem_of_cons in Hs as [<-|Hs].
    + change (persisted adb p (s :: ss) entries)
        with (persisted adb p ss (persist_one adb p entries s)).
      rewrite persisted_other by exact Hnotin.
      unfold persist_one. rewrite Hf, Hc, Hb.
      rewrite (with_name_name _ _ _ Hf). apply lookup_insert_eq.
    + by apply IH.
Qed.

Lemma suffixes_NoDup : NoDup suffixes.
Proof. apply (bool_decide_unpack _). vm_compute. exact I. Qed.


Lemma read_failures_witness :
  fst (open_remote_sqlite_database no_fault_host primary_only_adb
         (py "/data/missing.db") plain_sqlite3 (λ _, ret tt) empty_world)
  = Raise (FileNotFoundError (py "/data/missing.db")).
Proof.
  refine (proj1 (read_failures no_fault_host primary_only_adb
                   (py "/data/missing.db") plain_sqlite3 (λ _, ret tt)
                   empty_world (py "") (parse_path (py "/data/missing.db")) _ _)
                (FileNotFoundError (py "/data/missing.db")) eq_refl _ eq_refl).
  - apply (bool_decide_unpack _). vm_compute. exact I.
  - vm_compute. reflexivity.
  - vm_compute. reflexivity.
Defined.


(** ** Sorting *)

Lemma str_le_refl a : le_str a a.
Proof.
  unfold le_str. induction a as [|x a IH]; [reflexivity|].
  cbn [str_le]. by rewrite N.ltb_irrefl.
Qed.



Lemma str_le_trans a b c : le_str a b → le_str b c → le_str a c.
Proof.
  unfold le_str. revert b c.
  induction a as [|x a IH]; intros [|y b] [|z c]; cbn [str_le]; try done.
  destruct (N.ltb_spec x y), (N.ltb_spec y x), (N.ltb_spec y z),
    (N.ltb_spec z y), (N.ltb_spec x z), (N.ltb_spec z x);
    try done; try lia.
  apply IH.
Qed.

#[local] Instance le_str_trans : Transitive le_str.
Proof. intros a b c. apply str_le_trans. Qed.

Lemma insert_sorted_perm x l : Permutation (insert_sorted x l) (x :: l).
Proof.
  induction l as [|y l IH]; [reflexivity|]. cbn [insert_sorted].
  destruct (str_le y x); [|reflexivity].
  rewrite IH. apply perm_swap.
Qed.


Lemma sorted_from_perm acc l :
  Permutation (foldl (λ acc x, insert_sorted x acc) acc l) (acc ++ l).
Proof.
  revert acc. induction l as [|x l IH]; intros acc; cbn [foldl].
  - by rewrite app_nil_r.
  - rewrite IH, insert_sorted_perm. cbn [app]. apply Permutation_middle.
Qed.


Lemma sorted_perm l : Permutation (sorted l) l.
Proof. apply (sorted_from_perm [] l). Qed.





(** ** The embedded array *)

Lemma str_replace_bracket (s : str) :
  str_replace s (py "]") (py "        ]") = flat_map indent_bracket s.
Proof.
  change (py "]") with [93]. unfold str_replace.
  induction s as [|c s IH]; [reflexivity|].
  cbn [replace_scan starts_with flat_map length Nat.sub].
  unfold indent_bracket at 1. rewrite N.eqb_sym, andb_true_r.
  destruct (c =? 93); by rewrite IH.
Qed.

Lemma indent_bracket_id (s : str) :
  93 ∉ s → flat_map indent_bracket s = s.
Proof.
  induction s as [|c s IH]; [reflexivity|].
  intros [Hc Hs]%not_elem_of_cons. cbn [flat_map]. rewrite (IH Hs).
  unfold indent_bracket. by destruct (N.eqb_spec c 93) as [->|].
Qed.

Lemma indent_bracket_length (s : str) :
  length (flat_map indent_bracket s) = (length s + 8 * brackets s)%nat.
Proof.
  induction s as [|c s IH]; [reflexivity|].
  unfold brackets in *. cbn [flat_map]. rewrite length_app, IH, filter_cons.
  unfold indent_bracket.
  destruct (N.eqb_spec c 93) as [->|Hc].
  - rewrite decide_True by done. cbn [length py]. cbn. lia.
  - rewrite decide_False by done. cbn. lia.
Qed.

Lemma no_bracket_filter (s : str) :
  brackets s = 0%nat ↔ 93 ∉ s.
Proof.
  unfold brackets. rewrite length_zero_iff_nil. split.
  - intros H Hin. assert (93 ∈ filter (λ c, c = 93) s) as Hf
      by by apply list_elem_of_filter.
    rewrite H in Hf. by apply elem_of_nil in Hf.
  - intros H. induction s as [|c s IH]; [reflexivity|].
    apply not_elem_of_cons in H as [Hc Hs]. rewrite filter_cons.
    rewrite decide_False by done. by apply IH.
Qed.

(** A string with a closing bracket is changed by the replacement. *)
Lemma indent_bracket_changes (s : str) :
  93 ∈ s → flat_map indent_bracket s ≠ s.
Proof.
  intros Hin Heq. apply (f_equal length) in Heq.
  rewrite indent_bracket_length in Heq.
  assert (brackets s = 0%nat) as H0 by lia.
  by apply no_bracket_filter in H0.
Qed.

Lemma hexdigit_no_bracket (d : N) : hexdigit d ≠ 93.
Proof. unfold hexdigit. destruct (N.ltb_spec d 10); lia. Qed.

Lemma hex4_no_bracket (n : N) : 93 ∉ hex4 n.
Proof.
  unfold hex4. rewrite !not_elem_of_cons.
  pose proof hexdigit_no_bracket as H.
  split_and!; try apply not_eq_sym, H. apply not_elem_of_nil.
Qed.

Lemma ESCAPE_DCT_no_bracket : map_Forall (λ _ r, 93 ∉ r) ESCAPE_DCT.
Proof. apply (bool_decide_unpack _). vm_compute. exact I. Qed.

Lemma escape_replace_no_bracket (c : N) : 93 ∉ escape_replace c.
Proof.
  assert (93 ∉ [92; 117]) as Hu by (apply (bool_decide_unpack _); vm_compute; exact I).
  unfold escape_replace. destruct (ESCAPE_DCT !! c) as [r|] eqn:E.
  { exact (map_Forall_lookup_1 _ _ _ _ ESCAPE_DCT_no_bracket E). }
  destruct (c <? 65536); cbv zeta; rewrite !not_elem_of_app;
    auto using hex4_no_bracket.
Qed.

Lemma json_char_no_bracket (c : N) : c ≠ 93 → 93 ∉ json_char c.
Proof.
  intros Hc. unfold json_char. destruct (ESCAPE_ASCII c).
  - apply escape_replace_no_bracket.
  - rewrite list_elem_of_singleton. congruence.
Qed.

(** Encoding a string and then indenting the brackets is encoding the
    string with its brackets indented. *)
Lemma encode_indent_bracket (u : str) :
  flat_map indent_bracket (py_encode_basestring_ascii u)
  = py_encode_basestring_ascii (flat_map indent_bracket u).
Proof.
  unfold py_encode_basestring_ascii. rewrite !flat_map_app.
  change (flat_map indent_bracket [34]) with [34]. do 2 f_equal.
  induction u as [|c u IH]; [reflexivity|].
  cbn [flat_map]. rewrite !flat_map_app, IH. f_equal.
  destruct (N.eqb_spec c 93) as [->|Hc]; [reflexivity|].
  rewrite indent_bracket_id by by apply json_char_no_bracket.
  unfold indent_bracket. destruct (N.eqb_spec c 93); [done|].
  cbn [flat_map]. by rewrite app_nil_r.
Qed.

Lemma indent_bracket_spaces (n : nat) :
  flat_map indent_bracket (replicate n 32) = replicate n 32.
Proof. induction n; [reflexivity|]. cbn. by f_equal. Qed.

Lemma json_dumps_layout (lst : list str) (indent : nat) :
  json_dumps lst indent = array_layout indent 0 (map py_encode_basestring_ascii lst).
Proof.
  destruct lst as [|v rest]; [reflexivity|].
  unfold json_dumps, array_layout. cbn [map]. change (py "[") with [91].
  change (py "]") with [93]. cbn [replicate app]. do 2 f_equal.
  do 2 f_equal. f_equal.
  induction rest as [|x rest IH]; [reflexivity|].
  cbn [map flat_map]. by rewrite IH.
Qed.

Lemma layout_indent_bracket (indent : nat) (elements : list str) :
  flat_map indent_bracket (array_layout indent 0 elements)
  = array_layout indent 8 (map (flat_map indent_bracket) elements).
Proof.
  destruct elements as [|x rest]; [reflexivity|].
  unfold array_layout. cbn [map]. rewrite !flat_map_app.
  change (flat_map indent_bracket [91]) with [91].
  f_equal. cbn [flat_map replicate app]. change (indent_bracket 10) with [10].
  cbn [app]. f_equal. rewrite !flat_map_app, indent_bracket_spaces.
  do 2 f_equal. f_equal.
  induction rest as [|y rest IH]; [reflexivity|].
  cbn [map flat_map]. rewrite !flat_map_app, IH. f_equal.
  cbn [flat_map app]. change (indent_bracket 44) with [44].
  change (indent_bracket 10) with [10]. cbn [app].
  by rewrite !flat_map_app, indent_bracket_spaces.
Qed.

Lemma layout_length (indent closing : nat) (elements : list str) :
  length (array_layout indent closing elements)
  = (length (array_layout indent 0 elements) + closing)%nat.
Proof.
  destruct elements as [|x rest]; unfold array_layout;
    repeat (rewrite ?length_app, ?length_replicate; cbn [length replicate app]); lia.
Qed.

Lemma layout_brackets (indent : nat) (elements : list str) :
  brackets (array_layout indent 0 elements) = S (brackets (concat elements)).
Proof.
  unfold brackets.
  assert (∀ n, filter (λ c, c = 93) (replicate n 32) = []) as Hsp.
  { induction n; [reflexivity|]. cbn [replicate]. by rewrite filter_cons_False. }
  destruct elements as [|x rest]; [reflexivity|].
  unfold array_layout. cbn [replicate app concat].
  rewrite filter_cons_False, filter_cons_False by done.
  rewrite !filter_app, Hsp, !length_app. cbn [app length].
  rewrite filter_cons_False by done.
  change (filter (λ c, c = 93) [93]) with [93]. cbn [length].
  enough (length (filter (λ c, c = 93)
            (flat_map (λ y, 44 :: 10 :: replicate indent 32 ++ y) rest))
          = length (filter (λ c, c = 93) (concat rest))) by lia.
  induction rest as [|y rest IH]; [reflexivity|].
  cbn [flat_map concat app]. rewrite filter_cons_False, filter_cons_False by done.
  rewrite !filter_app, Hsp, !length_app, IH. reflexivity.
Qed.

Lemma brackets_app (a b : str) : brackets (a ++ b) = (brackets a + brackets b)%nat.
Proof. unfold brackets. by rewrite filter_app, length_app. Qed.

Lemma encode_brackets (u : str) : brackets (py_encode_basestring_ascii u) = brackets u.
Proof.
  unfold py_encode_basestring_ascii. rewrite !brackets_app.
  change (brackets [34]) with 0%nat. rewrite Nat.add_0_r. cbn [Nat.add].
  induction u as [|c u IH]; [reflexivity|].
  cbn [flat_map]. change (c :: u) with ([c] ++ u). rewrite !brackets_app, IH. f_equal.
  destruct (N.eqb_spec c 93) as [->|Hc]; [reflexivity|].
  rewrite (proj2 (no_bracket_filter _) (json_char_no_bracket c Hc)).
  symmetry. apply no_bracket_filter. rewrite list_elem_of_singleton. congruence.
Qed.

Lemma brackets_concat_zero (l : list str) :
  brackets (concat l) = 0%nat ↔ ∀ x, x ∈ l → brackets x = 0%nat.
Proof.
  induction l as [|y l IH]; cbn [concat].
  - split; [intros _ x Hx; by apply elem_of_nil in Hx|reflexivity].
  - rewrite brackets_app. split.
    + intros H x [->|Hx]%elem_of_cons; [lia|]. apply IH; [lia|done].
    + intros H. rewrite (H y) by left. apply IH. intros x Hx. apply H. by right.
Qed.

Section Embedded.
Context {OTPAccount : Type} (as_uri : OTPAccount → bool → str).

Lemma accounts_literal_layout accounts prepend_issuer :
  accounts_literal as_uri accounts prepend_issuer
  = array_layout 12 8
      (map (λ u, py_encode_basestring_ascii (flat_map indent_bracket u))
           (sorted (map (λ a, as_uri a prepend_issuer) accounts))).
Proof.
  unfold accounts_literal.
  rewrite str_replace_bracket, json_dumps_layout, layout_indent_bracket.
  rewrite map_map. f_equal. apply map_ext. intros u. apply encode_indent_bracket.
Qed.

(** C10. The argument of the template is the serialization of the sorted
    URIs with eight spaces put before every closing bracket in it.  It is
    therefore the array of the URIs with the brackets inside them
    indented as well: it is the array of the URIs themselves (up to the
    spaces before the closing bracket of the array) exactly when no URI
    has a closing bracket, and the string embedded for an account whose
    URI has one differs from that URI. *)
Theorem accounts_literal_brackets accounts prepend_issuer :
  let uris := sorted (map (λ a, as_uri a prepend_issuer) accounts) in
  let indented := flat_map indent_bracket in
  accounts_literal as_uri accounts prepend_issuer = indented (json_dumps uris 12)
  ∧ accounts_literal as_uri accounts prepend_issuer
    = array_layout 12 8 (map (λ u, py_encode_basestring_ascii (indented u)) uris)
  ∧ json_dumps uris 12 = array_layout 12 0 (map py_encode_basestring_ascii uris)
  ∧ (accounts_literal as_uri accounts prepend_issuer
       = array_layout 12 8 (map py_encode_basestring_ascii uris)
     ↔ ∀ u, u ∈ uris → 93 ∉ u)
  ∧ (∀ a, a ∈ accounts → 93 ∈ as_uri a prepend_issuer →
       as_uri a prepend_issuer ∈ uris
       ∧ indented (as_uri a prepend_issuer) ≠ as_uri a prepend_issuer
       ∧ py_encode_basestring_ascii (indented (as_uri a prepend_issuer))
         ≠ py_encode_basestring_ascii (as_uri a prepend_issuer)).
Proof.
  intros uris indented. split_and!.
  - apply str_replace_bracket.
  - apply accounts_literal_layout.
  - apply json_dumps_layout.
  - split.
    + intros Heq u Hu. apply no_bracket_filter.
      rewrite <- encode_brackets.
      assert (brackets (concat (map py_encode_basestring_ascii uris)) = 0%nat) as H0.
      { apply (f_equal length) in Heq. revert Heq.
        unfold accounts_literal. fold uris.
        rewrite str_replace_bracket, indent_bracket_length, json_dumps_layout.
        rewrite layout_brackets, (layout_length 12 8). lia. }
      rewrite brackets_concat_zero in H0. apply H0.
      apply list_elem_of_fmap. by exists u.
    + intros H. rewrite accounts_literal_layout. fold uris. f_equal.
      apply map_ext_in. intros u Hu%list_elem_of_In.
      fold indented. unfold indented. by rewrite indent_bracket_id by auto.
  - intros a Ha Hb.
    assert (93 ∈ py_encode_basestring_ascii (as_uri a prepend_issuer)) as Henc.
    { destruct (decide (93 ∈ py_encode_basestring_ascii (as_uri a prepend_issuer)))
        as [|Hn]; [done|].
      apply no_bracket_filter in Hn. rewrite encode_brackets in Hn.
      by apply no_bracket_filter in Hn. }
    split_and!.
    + unfold uris. rewrite sorted_perm.
      apply list_elem_of_fmap. by exists a.
    + by apply indent_bracket_changes.
    + unfold indented. rewrite <- encode_indent_bracket.
      by apply indent_bracket_changes.
Qed.

End Embedded.

(** ** The disclosure renderer *)

Section Display.
Context {OTPAccount : Type} (as_uri : OTPAccount → bool → str).

(** The renderer, step by step. *)
Lemma display_qr_codes_run host template accounts prepend_issuer (w : World) :
  let accounts_html :=
    page_head template ++ accounts_literal as_uri accounts prepend_issuer
      ++ page_tail template in
  let path := mkstemp_name (py ".html") w in
  let mode := N.lor S_IRUSR S_IWUSR in
  let url := py "file:" ++ pathname2url host path in
  let created :=
    log (EvMkstemp path mode)
        (set_tmp_files (insert path {| st_mode := mode; contents := [] |}) w) in
  display_qr_codes as_uri host template accounts prepend_issuer w =
  match encode_utf8 accounts_html with
  | Raise e => (Raise e, log (EvCloseFile path) created)
  | Return b =>
      match write_fault host path with
      | Some e =>
          let written := take (write_progress host path) b in
          (Raise e,
           log (EvCloseFile path)
             (log (EvWrite path written)
                (set_tmp_files
                   (alter (λ f, {| st_mode := st_mode f;
                                   contents := contents f ++ written |}) path)
                   created)))
      | None =>
          let opened :=
            log (EvBrowserOpen url)
              (log (EvCloseFile path)
                 (log (EvWrite path b)
                    (set_tmp_files
                       (alter (λ f, {| st_mode := st_mode f;
                                       contents := contents f ++ b |}) path)
                       created))) in
          match webbrowser_open host url with
          | Raise e =>
              (Raise e, log (EvRemove path) (set_tmp_files (delete path) opened))
          | Return _ =>
              (time_sleep host 10,
               log (EvRemove path)
                   (set_tmp_files (delete path) (log (EvSleep 10) opened)))
          end
      end
  end.
Proof.
  intros accounts_html path mode url created.
  unfold display_qr_codes, with_, bind, try_finally, lift, NamedTemporaryFile,
    NamedTemporaryFile_exit, file_write, webbrowser_open_, time_sleep_,
    os_remove, ret.
  fold accounts_html path mode.
  destruct (encode_utf8 accounts_html) as [b|e]; [|reflexivity].
  destruct (write_fault host path) as [e|]; [reflexivity|].
  fold url. destruct (webbrowser_open host url) as [ok|e]; world_simpl;
    rewrite lookup_alter_eq, lookup_insert_eq; cbn [fmap option_fmap option_map];
    [destruct (time_sleep host 10) as [[]|e]|]; reflexivity.
Qed.

(** Once the file is written, it is removed on every way out: whether the
    browser launcher raises or not and whether the sleep raises or not. *)
Lemma display_qr_codes_removes host template accounts prepend_issuer w b :
  encode_utf8 (page_head template
                 ++ accounts_literal as_uri accounts prepend_issuer
                 ++ page_tail template) = Return b →
  write_fault host (mkstemp_name (py ".html") w) = None →
  tmp_files (snd (display_qr_codes as_uri host template accounts prepend_issuer w))
    !! mkstemp_name (py ".html") w = None.
Proof.
  intros Hb Hw. rewrite display_qr_codes_run. cbv zeta. rewrite Hb, Hw.
  destruct (webbrowser_open host _); world_simpl; apply lookup_delete_eq.
Qed.

(** A failure of the write is raised before the [try] statement is
    reached, and the file that was created stays, with what had been
    written of the page. *)
Lemma display_qr_codes_write_failure host template accounts prepend_issuer w b e :
  encode_utf8 (page_head template
                 ++ accounts_literal as_uri accounts prepend_issuer
                 ++ page_tail template) = Return b →
  write_fault host (mkstemp_name (py ".html") w) = Some e →
  fst (display_qr_codes as_uri host template accounts prepend_issuer w) = Raise e
  ∧ tmp_files (snd (display_qr_codes as_uri host template accounts prepend_issuer w))
      !! mkstemp_name (py ".html") w
    = Some {| st_mode := N.lor S_IRUSR S_IWUSR;
              contents := take (write_progress host (mkstemp_name (py ".html") w)) b |}.
Proof.
  intros Hb Hw. rewrite display_qr_codes_run. cbv zeta. rewrite Hb, Hw.
  split; [reflexivity|]. world_simpl.
  by rewrite lookup_alter_eq, lookup_insert_eq.
Qed.

(** C9. The renderer creates one file, with the mode [0o600]: read and
    write for the owner and no bit for the group or the others; nothing it
    does afterwards creates another file, and a file that is still there
    at the end has that mode. *)
Theorem temporary_file_mode host template accounts prepend_issuer (w : World) :
  let w' := snd (display_qr_codes as_uri host template accounts prepend_issuer w) in
  let path := mkstemp_name (py ".html") w in
  let mode := N.lor S_IRUSR S_IWUSR in
  mode = 384
  ∧ N.land mode S_IRWXG_IRWXO = 0
  ∧ (∃ evs, trace w' = trace w ++ EvMkstemp path mode :: evs
            ∧ Forall (λ ev, match ev with EvMkstemp _ _ => False | _ => True end) evs)
  ∧ (match tmp_files w' !! path with
     | Some f => st_mode f = mode
     | None => True
     end).
Proof.
  intros w' path mode. split; [reflexivity|]. split; [reflexivity|].
  subst w'. rewrite display_qr_codes_run. cbv zeta. fold path mode.
  destruct (encode_utf8 _) as [b|e].
  2: { world_simpl. rewrite lookup_insert_eq. split; [|reflexivity].
       eexists. rewrite <- app_assoc. split; [reflexivity|]. by repeat constructor. }
  destruct (write_fault host path) as [e|].
  { world_simpl. rewrite lookup_alter_eq, lookup_insert_eq. split; [|reflexivity].
    eexists. rewrite <- !app_assoc. split; [reflexivity|]. by repeat constructor. }
  destruct (webbrowser_open host _) as [ok|e]; world_simpl;
    rewrite lookup_delete_eq; (split; [|exact I]);
    eexists; rewrite <- !app_assoc; (split; [reflexivity|]);
    by repeat constructor.
Qed.
End Display.

(** C3, on a machine whose disk is full: the write of the page raises, the
    renderer raises that error, and the temporary file it created is still
    there when it does. *)
Theorem display_qr_codes_leaves_file :
  fst (display_qr_codes uri_account full_disk_host short_page [] false empty_world)
    = Raise (OtherError (py "OSError") (py "No space left on device"))
  ∧ tmp_files (snd (display_qr_codes uri_account full_disk_host short_page []
                      false empty_world)) !! py ".html"
    = Some {| st_mode := 384; contents := [] |}.
Proof. split; vm_compute; reflexivity. Qed.



Lemma accounts_literal_brackets_witness :
  flat_map indent_bracket (py "otpauth://totp/a]b?secret=X")
  ≠ py "otpauth://totp/a]b?secret=X".
Proof.
  refine (proj1 (proj2 (proj2 (proj2 (proj2 (proj2
            (accounts_literal_brackets uri_account
               [py "otpauth://totp/a]b?secret=X"] false))))
            (py "otpauth://totp/a]b?secret=X") _ _))).
  - apply list_elem_of_singleton. reflexivity.
  - apply (bool_decide_unpack _). vm_compute. exact I.
Defined.

(** ** Checks on concrete inputs *)

Example escape_sql_string_quote :
  escape_sql_string (py "it's 100%") = py "'it''s 100\%'".
Proof. reflexivity. Qed.

Example parse_path_normalizes :
  parse_path (py "//data/./app//accounts.db/")
  = {| root := py "//"; tail := [py "data"; py "app"; py "accounts.db"] |}
  ∧ path_str (parse_path (py "/data/./app//accounts.db")) = py "/data/app/accounts.db"
  ∧ path_str (parse_path (py "")) = py "."
  ∧ name (parse_path (py "/data/app/accounts.db")) = py "accounts.db".
Proof. repeat split; vm_compute; reflexivity. Qed.

Example str_replace_examples :
  str_replace (py "aaa") (py "aa") (py "b") = py "ba"
  ∧ str_replace (py "abc") (py "") (py "-") = py "-a-b-c-"
  ∧ str_replace (py "[a]]") (py "]") (py "        ]") = py "[a        ]        ]".
Proof. repeat split; reflexivity. Qed.

Example sorted_example :
  sorted [py "b"; py "a"; py "ab"; py ""; py "B"] = [py ""; py "B"; py "a"; py "ab"; py "b"].
Proof. reflexivity. Qed.

(** Control characters, the backslash, a character outside the basic plane
    and DEL are escaped; the double quote is code point 34. *)
Example py_encode_basestring_ascii_example :
  py_encode_basestring_ascii [7; 92; 233; 0x1F600; 127; 97]
  = [34] ++ py "\u0007\\\u00e9\ud83d\ude00\u007fa" ++ [34].
Proof. vm_compute. reflexivity. Qed.

Example accounts_literal_example :
  accounts_literal uri_account
    [py "totp://totp/B?secret=X&period=30&digits=6";
     py "totp://totp/A?secret=Y&period=30&digits=6"] false
  = [91; 10] ++ replicate 12 32
      ++ [34] ++ py "totp://totp/A?secret=Y&period=30&digits=6" ++ [34; 44; 10]
      ++ replicate 12 32
      ++ [34] ++ py "totp://totp/B?secret=X&period=30&digits=6" ++ [34; 10]
      ++ replicate 8 32 ++ [93].
Proof. vm_compute. reflexivity. Qed.

(** A run of the loader against a device with the primary file only: the
    directory is made, the one file is written, the connection is opened and
    configured, and after the block it is closed and the directory removed. *)
Example open_remote_sqlite_database_trace :
  let d := fresh (dom (tmp_dirs empty_world)) in
  let c := fresh (dom (connections empty_world)) in
  open_remote_sqlite_database no_fault_host primary_only_adb
    (py "/data/accounts.db") plain_sqlite3 (λ connection, ret connection) empty_world
  = (Return c,
     {| tmp_dirs := ∅; tmp_files := ∅;
        connections :=
          {[ c := {| database_path := d ++ py "/accounts.db";
                     row_factory := Some (py "sqlite3.Row"); closed := true |} ]};
        trace :=
          [ EvMkdtemp d;
            EvWriteBytes d (py "accounts.db") [83; 81; 76];
            EvConnect c (d ++ py "/accounts.db");
            EvRowFactory c (py "sqlite3.Row");
            EvCloseConnection c;
            EvRmtree d ] |}).
Proof. vm_compute. reflexivity. Qed.

(** A run of the renderer where nothing fails. *)
Example display_qr_codes_trace :
  trace (snd (display_qr_codes uri_account no_fault_host short_page [py "u"] false
                empty_world))
  = [ EvMkstemp (py ".html") 384;
      EvWrite (py ".html")
        (py "const ACCOUNTS = [" ++ [10] ++ replicate 12 32 ++ [34; 117; 34; 10]
           ++ replicate 8 32 ++ py "];");
      EvCloseFile (py ".html");
      EvBrowserOpen (py "file:.html");
      EvSleep 10;
      EvRemove (py ".html") ].
Proof. vm_compute. reflexivity. Qed.


(** * Further properties *)

(** ** The escaper *)

Lemma unsubstitute_substituted (text : str) :
  unsubstitute (flat_map spec_substitution text) = Some text.
Proof.
  induction text as [|c text IH]; [reflexivity|].
  cbn [flat_map]. unfold spec_substitution at 1.
  repeat match goal with
  | |- context [c =? ?k] =>
      destruct (N.eqb_spec c k) as [->|?];
      [cbn -[flat_map spec_substitution]; rewrite IH; reflexivity|]
  end.
  cbn -[flat_map spec_substitution].
  destruct (N.eqb_spec c 92); [contradiction|].
  destruct (N.eqb_spec c 39); [contradiction|].
  rewrite IH. reflexivity.
Qed.

(** X1. Two different texts never get the same literal. *)
Theorem escape_sql_string_injective (a b : str) :
  escape_sql_string a = escape_sql_string b ↔ a = b.
Proof.
  split; [|by intros ->].
  rewrite !escape_sql_string_flat_map. intros H.
  apply app_inv_head, app_inv_tail in H.
  apply (f_equal unsubstitute) in H.
  rewrite !unsubstitute_substituted in H. by injection H.
Qed.

Lemma sqlite_read_back_length (c : N) :
  length (sqlite_read_back c) = if backslashed c then 2%nat else 1%nat.
Proof.
  unfold sqlite_read_back, spec_substitution, backslashed.
  repeat match goal with
  | |- context [c =? ?k] => destruct (N.eqb_spec c k) as [->|?]; [reflexivity|]
  end.
  rewrite bool_decide_eq_false_2; [reflexivity|].
  intros Hin. repeat (apply elem_of_cons in Hin as [?|Hin]; [contradiction|]).
  by apply elem_of_nil in Hin.
Qed.

Lemma sqlite_read_back_grows (text : str) :
  (length text ≤ length (flat_map sqlite_read_back text))%nat
  ∧ (length (flat_map sqlite_read_back text) = length text →
     forallb (λ c, negb (backslashed c)) text = true).
Proof.
  induction text as [|c text [IH1 IH2]]; [done|].
  cbn [flat_map forallb]. rewrite length_app, sqlite_read_back_length.
  cbn [length]. destruct (backslashed c); cbn [negb andb]; split; try lia.
  intros H. apply IH2. lia.
Qed.

(** X2. Under SQLite's rules the result is always one complete string
    literal, whatever the text holds: its value is the text with every
    backslashed character replaced by the two characters written for it.
    That value is the text itself exactly when the text has none of the
    eight backslashed characters. *)
Theorem escape_sql_string_sqlite_value (text : str) :
  sqlite_literal_value (escape_sql_string text)
    = Some (flat_map sqlite_read_back text)
  ∧ (sqlite_literal_value (escape_sql_string text) = Some text
     ↔ forallb (λ c, negb (backslashed c)) text = true).
Proof.
  split; [apply sqlite_literal_value_escaped|].
  split; [|apply sqlite_roundtrip_plain].
  rewrite sqlite_literal_value_escaped. intros [= H].
  apply sqlite_read_back_grows. by rewrite H.
Qed.

Lemma mysql_literal_body_escaped (text : str) :
  mysql_literal_body (flat_map spec_substitution text ++ [39])
  = Some (flat_map mysql_read_back text).
Proof.
  induction text as [|c text IH]; [reflexivity|].
  cbn [flat_map]. rewrite <- app_assoc.
  unfold mysql_read_back at 1. unfold spec_substitution at 1.
  repeat match goal with
  | |- context [c =? ?k] =>
      destruct (N.eqb_spec c k) as [->|?];
      [cbn -[flat_map spec_substitution mysql_read_back]; rewrite IH; reflexivity|]
  end.
  cbn -[flat_map spec_substitution mysql_read_back].
  destruct (N.eqb_spec c 39); [contradiction|].
  destruct (N.eqb_spec c 92); [contradiction|].
  rewrite IH. reflexivity.
Qed.

Lemma mysql_read_back_id (text : str) :
  flat_map mysql_read_back text = text ↔ (26 ∉ text) ∧ (37 ∉ text).
Proof.
  induction text as [|c text IH].
  - split; [intros _; split; apply not_elem_of_nil|reflexivity].
  - cbn [flat_map]. rewrite !not_elem_of_cons. unfold mysql_read_back at 1.
    destruct (N.eqb_spec c 26) as [->|H26].
    { split; [intros [= ?]|intros [[? _] _]]; done. }
    destruct (N.eqb_spec c 37) as [->|H37].
    { split; [intros [= ?]|intros [_ [? _]]]; done. }
    cbn [app]. split.
    + intros [= H]. apply IH in H as [? ?]. repeat split; congruence.
    + intros [[_ ?] [_ ?]]. f_equal. by apply IH.
Qed.

(** X3. Under MySQL's rules, too, the result is always one complete string
    literal.  Its value is the text itself exactly when the text has
    neither the substitute character (0x1A), written [\z], nor a percent
    sign, written [\%]. *)
Theorem escape_sql_string_mysql_value (text : str) :
  mysql_literal_value (escape_sql_string text)
    = Some (flat_map mysql_read_back text)
  ∧ (mysql_literal_value (escape_sql_string text) = Some text
     ↔ (26 ∉ text) ∧ (37 ∉ text)).
Proof.
  assert (mysql_literal_value (escape_sql_string text)
          = Some (flat_map mysql_read_back text)) as Hv.
  { rewrite escape_sql_string_flat_map.
    cbn [app mysql_literal_value N.eqb Pos.eqb]. apply mysql_literal_body_escaped. }
  split; [exact Hv|]. rewrite Hv, <- mysql_read_back_id.
  split; [by intros [= ?]|by intros ->].
Qed.

Lemma spec_substitution_length (c : N) :
  length (spec_substitution c)
  = if bool_decide (c ∈ dom SQL_BACKSLASHED_CHARS) then 2%nat else 1%nat.
Proof.
  rewrite SQL_BACKSLASHED_CHARS_dom. unfold spec_substitution.
  repeat match goal with
  | |- context [c =? ?k] =>
      destruct (N.eqb_spec c k) as [->|?];
      [rewrite bool_decide_eq_true_2
         by (apply elem_of_list_to_set, (bool_decide_unpack _); vm_compute; exact I);
       reflexivity|]
  end.
  rewrite bool_decide_eq_false_2; [reflexivity|].
  rewrite elem_of_list_to_set. intros Hin.
  repeat (apply elem_of_cons in Hin as [?|Hin]; [contradiction|]).
  by apply elem_of_nil in Hin.
Qed.

(** X4. The literal is longer than the text by the two quotes and by one
    character for each character of the text that is a key of the table;
    so it has at least two and at most twice the length plus two
    characters. *)
Theorem escape_sql_string_length (text : str) :
  length (escape_sql_string text) = (length text + rewritten text + 2)%nat
  ∧ (rewritten text ≤ length text)%nat.
Proof.
  rewrite escape_sql_string_flat_map. unfold rewritten.
  rewrite !length_app. cbn [length].
  split; [|apply length_filter].
  enough (length (flat_map spec_substitution text)
          = (length text
             + length (filter (λ c, c ∈ dom SQL_BACKSLASHED_CHARS) text))%nat) by lia.
  induction text as [|c text IH]; [reflexivity|].
  cbn [flat_map]. rewrite length_app, IH, spec_substitution_length, filter_cons.
  case_bool_decide as Hc.
  - rewrite decide_True by done. cbn [length]. lia.
  - rewrite decide_False by done. cbn [length]. lia.
Qed.

(** ** The snapshot loader *)

Lemma fresh_dir_None (w : World) : tmp_dirs w !! fresh (dom (tmp_dirs w)) = None.
Proof. apply not_elem_of_dom, is_fresh. Qed.

(** Making the directory and removing it again leaves the directories as
    they were. *)
Lemma mkdtemp_cleanup_world (w : World) :
  let d := fresh (dom (tmp_dirs w)) in
  snd (TemporaryDirectory_cleanup d
         (log (EvMkdtemp d) (set_tmp_dirs (insert d ∅) w)))
  = log (EvRmtree d) (log (EvMkdtemp d) w).
Proof.
  intros d. destruct w as [dirs files conns tr].
  unfold TemporaryDirectory_cleanup, log, set_tmp_dirs. cbn.
  f_equal. apply delete_insert_id, (fresh_dir_None (Build_World dirs files conns tr)).
Qed.

Lemma with_name_name_nonempty p n f : with_name p n = Return f → name p ≠ [].
Proof. unfold with_name. by case_decide. Qed.

(** X5. If reading the primary file raises, whatever the class of the
    exception and whatever the device holds for the side files, the loader
    raises that exception; it writes nothing, opens no connection and does
    not run the block: all it does locally is make the temporary directory
    and remove it. *)
Theorem loader_primary_failure {A} host adb database sqlite3 (body : nat → M A)
    (w : World) (e : exn) :
  let p := parse_path database in
  let d := fresh (dom (tmp_dirs w)) in
  name p ≠ [] →
  read_file adb p = Raise e →
  open_remote_sqlite_database host adb database sqlite3 body w
  = (Raise e, log (EvRmtree d) (log (EvMkdtemp d) w)).
Proof.
  intros p d Hname Hread.
  pose proof (parse_path_name_component database Hname) as Hc. fold p in Hc.
  rewrite open_remote_sqlite_database_run. cbv zeta. fold p d.
  unfold suffixes. cbn [for_]. unfold bind at 1.
  assert (∀ w0, pull host adb p d (py "") w0 = (Raise e, w0)) as ->.
  { intros w0. destruct (is_FileNotFoundError e) eqn:He.
    - eapply pull_not_found_primary; eauto using with_name_same.
    - eapply pull_other_failure; eauto using with_name_same. }
  f_equal. apply mkdtemp_cleanup_world.
Qed.

Lemma loader_primary_failure_witness :
  open_remote_sqlite_database no_fault_host primary_only_adb
    (py "/data/missing.db") plain_sqlite3 (λ c, ret c) empty_world
  = (Raise (FileNotFoundError (py "/data/missing.db")),
     log (EvRmtree (fresh (dom (tmp_dirs empty_world))))
       (log (EvMkdtemp (fresh (dom (tmp_dirs empty_world)))) empty_world)).
Proof.
  apply (loader_primary_failure no_fault_host primary_only_adb
           (py "/data/missing.db") plain_sqlite3 (λ c, ret c) empty_world).
  - vm_compute. discriminate.
  - vm_compute. reflexivity.
Defined.

(** X6. For a database path without a final component (the root, the empty
    path, a single dot) the loader raises [ValueError] before anything is
    read from the device: the outcome does not depend on the device, and
    all that was done locally is making the temporary directory and
    removing it. *)
Theorem loader_nameless_path {A} host adb database sqlite3 (body : nat → M A)
    (w : World) :
  let d := fresh (dom (tmp_dirs w)) in
  name (parse_path database) = [] →
  ∃ msg,
    open_remote_sqlite_database host adb database sqlite3 body w
    = (Raise (ValueError msg), log (EvRmtree d) (log (EvMkdtemp d) w)).
Proof.
  intros d Hname. eexists.
  rewrite open_remote_sqlite_database_run. cbv zeta. fold d.
  unfold suffixes. cbn [for_]. unfold bind at 1, pull at 1, bind at 1, lift at 1.
  rewrite with_name_empty_name by exact Hname.
  f_equal. apply mkdtemp_cleanup_world.
Qed.

Lemma loader_nameless_path_witness :
  ∃ msg,
    open_remote_sqlite_database no_fault_host full_adb (py "./") plain_sqlite3
      (λ c, ret c) empty_world
    = (Raise (ValueError msg),
       log (EvRmtree (fresh (dom (tmp_dirs empty_world))))
         (log (EvMkdtemp (fresh (dom (tmp_dirs empty_world)))) empty_world)).
Proof.
  apply (loader_nameless_path no_fault_host full_adb (py "./") plain_sqlite3
           (λ c, ret c) empty_world).
  vm_compute. reflexivity.
Defined.

Lemma write_bytes_other_dirs host d entry b w r w' :
  write_bytes host d entry b w = (r, w') →
  delete d (tmp_dirs w') = delete d (tmp_dirs w).
Proof.
  unfold write_bytes.
  destruct (write_fault host _); destruct (tmp_dirs w !! d); cbv zeta;
    intros [= _ <-]; try done; cbn; apply delete_insert_eq.
Qed.

Lemma pull_other_dirs host adb p d s w r w' :
  pull host adb p d s w = (r, w') →
  delete d (tmp_dirs w') = delete d (tmp_dirs w).
Proof.
  unfold pull, bind, lift, try_except_else.
  destruct (with_name p (name p ++ s)) as [f|e]; [|by intros [= _ <-]].
  destruct (read_file adb f) as [c|e].
  - destruct (read c) as [b|e]; [apply write_bytes_other_dirs|by intros [= _ <-]].
  - destruct (is_FileNotFoundError e); [destruct (decide (s = py ""))|];
      by intros [= _ <-].
Qed.

Lemma loop_other_dirs host adb p d ss w r w' :
  for_ ss (pull host adb p d) w = (r, w') →
  delete d (tmp_dirs w') = delete d (tmp_dirs w).
Proof.
  revert w. induction ss as [|s ss IH]; intros w; [by intros [= _ <-]|].
  cbn [for_]. unfold bind.
  destruct (pull host adb p d s w) as [[[]|e] w1] eqn:E.
  - intros H. rewrite (IH _ H). by eapply pull_other_dirs.
  - intros [= _ <-]. by eapply pull_other_dirs.
Qed.

(** X7. If the block leaves the temporary directories alone, then after the
    statement the temporary directories and what they hold are what they
    were before it, on every way out: the loader leaves no directory, and
    touches no directory but its own. *)
Theorem loader_restores_directories {A} host adb database sqlite3
    (body : nat → M A) (w : World) :
  (∀ c w0, tmp_dirs (snd (body c w0)) = tmp_dirs w0) →
  tmp_dirs (snd (open_remote_sqlite_database host adb database sqlite3 body w))
  = tmp_dirs w.
Proof.
  intros Hbody. rewrite open_remote_sqlite_database_run. cbv zeta.
  set (d := fresh (dom (tmp_dirs w))).
  set (w0 := log (EvMkdtemp d) (set_tmp_dirs (insert d ∅) w)).
  assert (delete d (tmp_dirs w0) = tmp_dirs w) as Hw0.
  { subst w0. world_simpl. apply delete_insert_id, fresh_dir_None. }
  destruct (for_ suffixes _ w0) as [[[]|e] w1] eqn:Hloop;
    apply loop_other_dirs in Hloop.
  2: { world_simpl. congruence. }
  unfold sqlite3_connect. destruct (connect_fault sqlite3 _).
  { world_simpl. congruence. }
  world_simpl. rewrite Hbody. world_simpl. congruence.
Qed.

Lemma loader_restores_directories_witness :
  tmp_dirs (snd (open_remote_sqlite_database no_fault_host full_adb
                   (py "/data/accounts.db") plain_sqlite3 (λ c, ret c) empty_world))
  = tmp_dirs empty_world.
Proof.
  apply (loader_restores_directories no_fault_host full_adb
           (py "/data/accounts.db") plain_sqlite3 (λ c, ret c) empty_world).
  intros c w0. reflexivity.
Defined.

(** When the loop has gone through and [connect] does not raise, the block
    is entered with the files the loop persisted. *)
Lemma loader_entered {A} host adb database sqlite3 (body : nat → M A) w w1 :
  let p := parse_path database in
  let d := fresh (dom (tmp_dirs w)) in
  for_ suffixes (pull host adb p d)
       (log (EvMkdtemp d) (set_tmp_dirs (insert d ∅) w)) = (Return tt, w1) →
  connect_fault sqlite3 (d ++ sep :: name p) = None →
  ∃ c wb,
    open_remote_sqlite_database host adb database sqlite3 body w
      = (fst (body c wb),
         snd (TemporaryDirectory_cleanup d
                (snd (connection_close c (snd (body c wb))))))
    ∧ tmp_dirs wb !! d = Some (persisted adb p suffixes ∅)
    ∧ connections wb !! c
      = Some {| database_path := d ++ sep :: name p;
                row_factory := Some (py "sqlite3.Row"); closed := false |}.
Proof.
  intros p d Hloop Hconn.
  rewrite open_remote_sqlite_database_run. cbv zeta. fold p d.
  rewrite Hloop. unfold sqlite3_connect. rewrite Hconn.
  eexists _, _. split; [reflexivity|]. split.
  - world_simpl. eapply loop_persist; [|exact Hloop]. world_simpl.
    apply lookup_insert_eq.
  - world_simpl. by rewrite lookup_alter_eq, lookup_insert_eq.
Qed.

Lemma pull_primary_returns host adb p d w w' :
  pull host adb p d (py "") w = (Return tt, w') →
  ∃ stream b, read_file adb p = Return stream ∧ read stream = Return b.
Proof.
  unfold pull, bind, lift, try_except_else.
  destruct (with_name p (name p ++ py "")) as [f|e] eqn:Hf; [|discriminate].
  assert (f = p) as ->.
  { pose proof (with_name_name_nonempty _ _ _ Hf) as Hn.
    revert Hf. unfold with_name. repeat case_decide; try discriminate.
    intros [= <-]. change (py "") with (@nil N).
    rewrite app_nil_r, <- name_last by done. by destruct p. }
  destruct (read_file adb p) as [c|e].
  - destruct (read c) as [b|e] eqn:Hb; [|discriminate].
    intros _. by exists c, b.
  - destruct (is_FileNotFoundError e); [|discriminate].
    by rewrite decide_True.
Qed.

(** X8. The statement returns normally only if the primary file was read:
    the block was then entered with the copy of the primary file in the
    temporary directory, under the file's own name and with the bytes that
    were read, and with an open connection on the path of that copy. *)
Theorem loader_return_has_primary {A} host adb database sqlite3
    (body : nat → M A) (w : World) (v : A) :
  let p := parse_path database in
  let d := fresh (dom (tmp_dirs w)) in
  fst (open_remote_sqlite_database host adb database sqlite3 body w) = Return v →
  ∃ stream b c wb entries,
    read_file adb p = Return stream ∧ read stream = Return b
    ∧ fst (body c wb) = Return v
    ∧ tmp_dirs wb !! d = Some entries ∧ entries !! name p = Some b
    ∧ connections wb !! c
      = Some {| database_path := d ++ sep :: name p;
                row_factory := Some (py "sqlite3.Row"); closed := false |}.
Proof.
  intros p d Hret.
  destruct (for_ suffixes (pull host adb p d)
              (log (EvMkdtemp d) (set_tmp_dirs (insert d ∅) w)))
    as [[[]|e] w1] eqn:Hloop.
  2: { rewrite (loop_raise_propagates _ _ _ _ _ _ _ _ Hloop) in Hret. discriminate. }
  destruct (connect_fault sqlite3 (d ++ sep :: name p)) as [e|] eqn:Hconn.
  { revert Hret. rewrite open_remote_sqlite_database_run. cbv zeta. fold p d.
    rewrite Hloop. unfold sqlite3_connect. rewrite Hconn. discriminate. }
  destruct (loader_entered host adb database sqlite3 body w w1 Hloop Hconn)
    as (c & wb & Hrun & Hdir & Hc).
  assert (∃ stream b, read_file adb p = Return stream ∧ read stream = Return b)
    as (stream & b & Hstream & Hb).
  { revert Hloop. unfold suffixes. cbn [for_]. unfold bind at 1.
    destruct (pull host adb p d (py "") _) as [[[]|e] w'] eqn:E; [|discriminate].
    intros _. by eapply pull_primary_returns. }
  exists stream, b, c, wb, (persisted adb p suffixes ∅).
  split_and!; try done.
  - rewrite Hrun in Hret. exact Hret.
  - assert (name p ≠ []) as Hn.
    { intros Hn. revert Hloop. unfold suffixes. cbn [for_].
      unfold bind at 1, pull at 1, bind at 1, lift at 1.
      by rewrite with_name_empty_name. }
    pose proof (parse_path_name_component database Hn) as Hcomp. fold p in Hcomp.
    pose proof (persisted_lookup adb p suffixes ∅ (py "") p stream b
                  suffixes_NoDup) as Hl.
    apply Hl; try done.
    + unfold suffixes. left.
    + by apply with_name_same.
Qed.

Lemma loader_return_has_primary_witness :
  ∃ b entries wb,
    read (Build_RemoteFile (Return [83; 81; 76])) = Return b
    ∧ tmp_dirs wb !! fresh (dom (tmp_dirs empty_world)) = Some entries
    ∧ entries !! py "accounts.db" = Some b.
Proof.
  destruct (loader_return_has_primary no_fault_host full_adb
              (py "/data/accounts.db") plain_sqlite3 (λ c, ret c) empty_world
              (fresh (dom (connections empty_world))))
    as (stream & b & c & wb & entries & Hs & Hb & _ & Hd & He & _).
  - vm_compute. reflexivity.
  - exists b, entries, wb. vm_compute in Hs. injection Hs as <-.
    split; [exact Hb|]. split; [exact Hd|exact He].
Defined.

Lemma pull_entries host adb p d s w r w' entries :
  tmp_dirs w !! d = Some entries →
  pull host adb p d s w = (r, w') →
  tmp_dirs w' !! d = Some entries
  ∨ ∃ b, tmp_dirs w' !! d = Some (<[name p ++ s := b]> entries).
Proof.
  intros Hd. unfold pull, bind, lift, try_except_else.
  destruct (with_name p (name p ++ s)) as [f|e] eqn:Hf; [|intros [= _ <-]; by left].
  destruct (read_file adb f) as [c|e].
  - destruct (read c) as [b|e]; [|intros [= _ <-]; by left].
    unfold write_bytes. rewrite Hd. cbv zeta.
    destruct (write_fault host _); intros [= _ <-]; right; eexists; world_simpl;
      rewrite (with_name_name _ _ _ Hf); apply lookup_insert_eq.
  - destruct (is_FileNotFoundError e); [destruct (decide (s = py ""))|];
      intros [= _ <-]; by left.
Qed.

Lemma loop_entries host adb p d ss w r w' entries :
  tmp_dirs w !! d = Some entries →
  for_ ss (pull host adb p d) w = (r, w') →
  ∃ entries',
    tmp_dirs w' !! d = Some entries'
    ∧ (size entries' ≤ size entries + length ss)%nat
    ∧ ∀ k, is_Some (entries' !! k) →
           is_Some (entries !! k) ∨ ∃ s, s ∈ ss ∧ k = name p ++ s.
Proof.
  revert w entries. induction ss as [|s ss IH]; intros w entries Hd.
  - intros [= _ <-]. exists entries. split_and!; [done|cbn; lia|auto].
  - cbn [for_]. unfold bind.
    destruct (pull host adb p d s w) as [[[]|e] w1] eqn:E.
    + intros Hrest.
      destruct (pull_entries _ _ _ _ _ _ _ _ _ Hd E) as [H1|[b H1]];
        destruct (IH _ _ H1 Hrest) as (entries' & Hd' & Hsize & Hkeys);
        exists entries'; (split; [exact Hd'|]); split.
      * cbn [length]. lia.
      * intros k Hk. destruct (Hkeys k Hk) as [?|(s' & ? & ?)]; [by left|].
        right. exists s'. split; [by right|done].
      * cbn [length]. rewrite map_size_insert in Hsize.
        destruct (entries !! (name p ++ s)); unfold id in Hsize; lia.
      * intros k Hk. destruct (Hkeys k Hk) as [Hin|(s' & ? & ?)].
        -- destruct (decide (k = name p ++ s)) as [->|Hne].
           ++ right. exists s. split; [left|done].
           ++ left. by rewrite lookup_insert_ne in Hin.
        -- right. exists s'. split; [by right|done].
    + intros [= _ <-].
      destruct (pull_entries _ _ _ _ _ _ _ _ _ Hd E) as [H1|[b H1]];
        eexists; (split; [exact H1|]); split.
      * cbn [length]. lia.
      * auto.
      * cbn [length]. rewrite map_size_insert.
        destruct (entries !! (name p ++ s)); unfold id; lia.
      * intros k Hin. destruct (decide (k = name p ++ s)) as [->|Hne].
        -- right. exists s. split; [left|done].
        -- left. by rewrite lookup_insert_ne in Hin.
Qed.

(** X9. However the loop over the four suffixes ends, with every read done
    or cut short by an exception, the temporary directory it started with
    empty holds at most four files, and each of them is named as the
    database file followed by one of the four suffixes. *)
Theorem snapshot_directory_bound host adb (p : PurePosixPath) (d : str)
    (w w' : World) (r : outcome unit) :
  tmp_dirs w !! d = Some ∅ →
  for_ suffixes (pull host adb p d) w = (r, w') →
  ∃ entries,
    tmp_dirs w' !! d = Some entries
    ∧ (size entries ≤ 4)%nat
    ∧ ∀ k, is_Some (entries !! k) → ∃ s, s ∈ suffixes ∧ k = name p ++ s.
Proof.
  intros Hd Hloop.
  destruct (loop_entries _ _ _ _ _ _ _ _ _ Hd Hloop) as (entries & H1 & H2 & H3).
  exists entries. split_and!; [done|by rewrite map_size_empty in H2|].
  intros k Hk. destruct (H3 k Hk) as [[? Hin]|?]; [|done].
  by rewrite lookup_empty in Hin.
Qed.

Lemma snapshot_directory_bound_witness :
  ∃ entries,
    tmp_dirs (snd (for_ suffixes
                     (pull no_fault_host full_adb (parse_path (py "/data/accounts.db"))
                           (py "tmp"))
                     (set_tmp_dirs (insert (py "tmp") ∅) empty_world)))
      !! py "tmp" = Some entries
    ∧ (size entries ≤ 4)%nat.
Proof.
  destruct (snapshot_directory_bound no_fault_host full_adb
              (parse_path (py "/data/accounts.db")) (py "tmp")
              (set_tmp_dirs (insert (py "tmp") ∅) empty_world)
              (snd (for_ suffixes
                      (pull no_fault_host full_adb
                            (parse_path (py "/data/accounts.db")) (py "tmp"))
                      (set_tmp_dirs (insert (py "tmp") ∅) empty_world)))
              (fst (for_ suffixes
                      (pull no_fault_host full_adb
                            (parse_path (py "/data/accounts.db")) (py "tmp"))
                      (set_tmp_dirs (insert (py "tmp") ∅) empty_world))))
    as (entries & H1 & H2 & _).
  - vm_compute. reflexivity.
  - apply surjective_pairing.
  - exists entries. split; [exact H1|exact H2].
Defined.

(** X11. An error of the local write is never swallowed: when the write of
    a copy raises, for the primary file or for a side file and whatever the
    class of the exception, a not-found error included, the loader raises
    it once the loop reaches that file. *)
Theorem loader_local_write_failure {A} host adb database sqlite3
    (body : nat → M A) (w w1 : World) (s : str) (f : PurePosixPath)
    (stream : RemoteFile) (b : bytes) (e : exn) (pre post : list str) :
  let p := parse_path database in
  let d := fresh (dom (tmp_dirs w)) in
  let w0 := log (EvMkdtemp d) (set_tmp_dirs (insert d ∅) w) in
  suffixes = pre ++ s :: post →
  for_ pre (pull host adb p d) w0 = (Return tt, w1) →
  with_name p (name p ++ s) = Return f →
  read_file adb f = Return stream →
  read stream = Return b →
  write_fault host (d ++ sep :: name f) = Some e →
  fst (open_remote_sqlite_database host adb database sqlite3 body w) = Raise e.
Proof.
  intros p d w0 Hsplit Hpre Hf Hstream Hb Hfault.
  assert (∃ w2, pull host adb p d s w1 = (Raise e, w2)) as [w2 Hpull].
  { rewrite (pull_write host adb p d s f stream b) by done.
    unfold write_bytes. rewrite Hfault.
    destruct (tmp_dirs w1 !! d); by eexists. }
  apply (loop_raise_propagates _ _ _ _ _ _ _ w2). fold p d w0.
  rewrite Hsplit. by eapply for_raise.
Qed.

Lemma loader_local_write_failure_witness :
  fst (open_remote_sqlite_database wal_fault_host full_adb (py "/data/accounts.db")
         plain_sqlite3 (λ c, ret c) empty_world)
  = Raise (FileNotFoundError
             (fresh (dom (tmp_dirs empty_world)) ++ py "/accounts.db-wal")).
Proof.
  refine (loader_local_write_failure wal_fault_host full_adb
            (py "/data/accounts.db") plain_sqlite3 (λ c, ret c) empty_world
            (snd (for_ [py ""; py "-journal"]
                    (pull wal_fault_host full_adb (parse_path (py "/data/accounts.db"))
                          (fresh (dom (tmp_dirs empty_world))))
                    (log (EvMkdtemp (fresh (dom (tmp_dirs empty_world))))
                       (set_tmp_dirs (insert (fresh (dom (tmp_dirs empty_world))) ∅)
                          empty_world))))
            (py "-wal") (parse_path (py "/data/accounts.db-wal"))
            {| read := Return [2; 2] |} [2; 2] _
            [py ""; py "-journal"] [py "-shm"] _ _ _ _ _ _);
    vm_compute; reflexivity.
Defined.

(** X12. If the reads go through but [sqlite3.connect] raises, the loader
    raises that exception without running the block; the copies are
    discarded with the directory, and the directories, the files and the
    connections of the machine are what they were before. *)
Theorem loader_connect_failure {A} host adb database sqlite3
    (body : nat → M A) (w w1 : World) (e : exn) :
  let p := parse_path database in
  let d := fresh (dom (tmp_dirs w)) in
  let w' := snd (open_remote_sqlite_database host adb database sqlite3 body w) in
  for_ suffixes (pull host adb p d)
       (log (EvMkdtemp d) (set_tmp_dirs (insert d ∅) w)) = (Return tt, w1) →
  connect_fault sqlite3 (d ++ sep :: name p) = Some e →
  open_remote_sqlite_database host adb database sqlite3 body w
    = (Raise e, snd (TemporaryDirectory_cleanup d w1))
  ∧ tmp_dirs w' = tmp_dirs w
  ∧ tmp_files w' = tmp_files w
  ∧ connections w' = connections w.
Proof.
  intros p d w' Hloop Hconn. subst w'.
  rewrite open_remote_sqlite_database_run. cbv zeta. fold p d.
  rewrite Hloop. unfold sqlite3_connect. rewrite Hconn.
  split; [reflexivity|]. world_simpl.
  pose proof (loop_other_dirs _ _ _ _ _ _ _ _ Hloop) as Hdirs.
  apply loop_pulled in Hloop as [HC HF _ _].
  split_and!; [|done..].
  rewrite Hdirs. world_simpl. apply delete_insert_id, fresh_dir_None.
Qed.

Lemma loader_connect_failure_witness :
  fst (open_remote_sqlite_database no_fault_host full_adb (py "/data/accounts.db")
         failing_sqlite3 (λ c, ret c) empty_world)
  = Raise (OtherError (py "sqlite3.OperationalError")
             (py "unable to open database file")).
Proof.
  destruct (loader_connect_failure no_fault_host full_adb (py "/data/accounts.db")
              failing_sqlite3 (λ c, ret c) empty_world
              (snd (for_ suffixes
                      (pull no_fault_host full_adb (parse_path (py "/data/accounts.db"))
                            (fresh (dom (tmp_dirs empty_world))))
                      (log (EvMkdtemp (fresh (dom (tmp_dirs empty_world))))
                         (set_tmp_dirs (insert (fresh (dom (tmp_dirs empty_world))) ∅)
                            empty_world))))
              (OtherError (py "sqlite3.OperationalError")
                 (py "unable to open database file")))
    as [H _].
  - vm_compute. reflexivity.
  - reflexivity.
  - by rewrite H.
Defined.

Lemma snapshot_dir_size host adb p d w r w' :
  tmp_dirs w !! d = Some ∅ →
  for_ suffixes (pull host adb p d) w = (r, w') →
  ∃ entries, tmp_dirs w' !! d = Some entries ∧ (size entries ≤ 4)%nat.
Proof.
  intros Hd Hloop.
  destruct (loop_entries _ _ _ _ _ _ _ _ _ Hd Hloop) as (entries & H1 & H2 & _).
  exists entries. split; [done|]. by rewrite map_size_empty in H2.
Qed.

Lemma pull_ok host adb p d s f stream b w :
  with_name p (name p ++ s) = Return f →
  read_file adb f = Return stream → read stream = Return b →
  write_fault host (d ++ sep :: name f) = None →
  is_Some (tmp_dirs w !! d) →
  ∃ w', pull host adb p d s w = (Return tt, w') ∧ is_Some (tmp_dirs w' !! d).
Proof.
  intros Hf Hs Hb Hw [entries Hd].
  rewrite (pull_write host adb p d s f stream b) by done.
  unfold write_bytes. rewrite Hw, Hd. eexists. split; [reflexivity|].
  world_simpl. rewrite lookup_insert_eq. by eexists.
Qed.

(** X10. When the device holds the primary file and all three side files
    and nothing fails locally, the block is entered with exactly four files
    in the temporary directory: for each suffix, the file named as the
    database file followed by that suffix, with the bytes read for it. *)
Theorem snapshot_all_files {A} host adb database sqlite3 (body : nat → M A)
    (w : World) (content : str → bytes) :
  let p := parse_path database in
  let d := fresh (dom (tmp_dirs w)) in
  name p ≠ [] →
  (∀ s f, s ∈ suffixes → with_name p (name p ++ s) = Return f →
          ∃ stream, read_file adb f = Return stream
                    ∧ read stream = Return (content s)) →
  (∀ path, write_fault host path = None) →
  connect_fault sqlite3 (d ++ sep :: name p) = None →
  ∃ c wb entries,
    open_remote_sqlite_database host adb database sqlite3 body w
      = (fst (body c wb),
         snd (TemporaryDirectory_cleanup d
                (snd (connection_close c (snd (body c wb))))))
    ∧ tmp_dirs wb !! d = Some entries
    ∧ size entries = 4%nat
    ∧ ∀ s, s ∈ suffixes → entries !! (name p ++ s) = Some (content s).
Proof.
  intros p d Hname Hread Hwrite Hconn.
  pose proof (parse_path_name_component database Hname) as Hcomp. fold p in Hcomp.
  assert (∀ s, s ∈ suffixes →
            ∃ f stream, with_name p (name p ++ s) = Return f
                        ∧ read_file adb f = Return stream
                        ∧ read stream = Return (content s)) as Hall.
  { intros s Hs. eexists.
    pose proof (with_name_append p s Hcomp (suffixes_no_sep s Hs)) as Hf.
    destruct (Hread s _ Hs Hf) as (stream & ? & ?). eauto. }
  assert (∀ ss w0, (∀ s, s ∈ ss → s ∈ suffixes) → is_Some (tmp_dirs w0 !! d) →
            ∃ w1, for_ ss (pull host adb p d) w0 = (Return tt, w1)) as Hloop.
  { induction ss as [|s ss IH]; intros w0 Hss Hd; [by eexists|].
    destruct (Hall s) as (f & stream & Hf & Hs & Hb); [apply Hss; left|].
    destruct (pull_ok host adb p d s f stream _ w0 Hf Hs Hb (Hwrite _) Hd)
      as (w' & Hpull & Hd').
    destruct (IH w') as [w1 H1]; [intros; apply Hss; by right|done|].
    exists w1. cbn [for_]. unfold bind. by rewrite Hpull. }
  destruct (Hloop suffixes (log (EvMkdtemp d) (set_tmp_dirs (insert d ∅) w)))
    as [w1 Hw1]; [done|world_simpl; rewrite lookup_insert_eq; by eexists|].
  destruct (loader_entered host adb database sqlite3 body w w1 Hw1 Hconn)
    as (c & wb & Hrun & Hdir & _).
  exists c, wb, (persisted adb p suffixes ∅).
  assert (∀ s, s ∈ suffixes →
            persisted adb p suffixes ∅ !! (name p ++ s) = Some (content s)) as Hlook.
  { intros s Hs. destruct (Hall s Hs) as (f & stream & Hf & Hst & Hb).
    rewrite <- (with_name_name _ _ _ Hf).
    eapply persisted_lookup; eauto using suffixes_NoDup. }
  split_and!; [done..| |done].
  apply Nat.le_antisymm.
  - destruct (snapshot_dir_size host adb p d _ _ w1 (lookup_insert_eq _ _ _) Hw1)
      as (entries & He & Hsz).
    assert (tmp_dirs w1 !! d = Some (persisted adb p suffixes ∅)) as Hp.
    { eapply loop_persist; [|exact Hw1]. world_simpl. apply lookup_insert_eq. }
    congruence.
  - assert (NoDup ((λ s, name p ++ s) <$> suffixes)) as Hnd.
    { apply NoDup_fmap_2; [|apply suffixes_NoDup]. intros ???. by eapply app_inv_head. }
    rewrite <- (length_fmap (λ s, name p ++ s) suffixes : _ = 4%nat).
    rewrite <- (size_list_to_set (C:=gset str) _ Hnd), <- size_dom.
    apply subseteq_size. intros k [s [-> Hs]]%elem_of_list_to_set%list_elem_of_fmap.
    apply elem_of_dom. rewrite Hlook by done. by eexists.
Qed.

Lemma snapshot_all_files_witness :
  ∃ wb entries,
    tmp_dirs wb !! fresh (dom (tmp_dirs empty_world)) = Some entries
    ∧ size entries = 4%nat
    ∧ entries !! py "accounts.db-wal" = Some [2; 2].
Proof.
  destruct (snapshot_all_files no_fault_host full_adb (py "/data/accounts.db")
              plain_sqlite3 (λ c, ret c) empty_world
              (λ s, if decide (s = py "") then [83; 81; 76]
                    else if decide (s = py "-journal") then [1]
                    else if decide (s = py "-wal") then [2; 2]
                    else [3; 3; 3]))
    as (c & wb & entries & _ & Hd & Hsize & Hall).
  - vm_compute. discriminate.
  - intros s f Hs Hf.
    repeat (apply elem_of_cons in Hs as [->|Hs];
            [vm_compute in Hf; injection Hf as <-; eexists; split;
             vm_compute; reflexivity|]).
    by apply elem_of_nil in Hs.
  - reflexivity.
  - reflexivity.
  - exists wb, entries. split; [exact Hd|]. split; [exact Hsize|].
    apply (Hall (py "-wal")). apply (bool_decide_unpack _). vm_compute. exact I.
Defined.

(** ** The embedded array and the page *)

Lemma hexdigit_printable (d : N) : d < 16 → printable (hexdigit d) = true.
Proof.
  intros Hd. unfold hexdigit, printable.
  destruct (N.ltb_spec d 10); apply andb_true_iff; split; apply N.leb_le; lia.
Qed.

Lemma hex4_printable (n : N) : forallb printable (hex4 n) = true.
Proof.
  unfold hex4. cbn [forallb].
  rewrite !hexdigit_printable by (apply N.mod_lt; lia). reflexivity.
Qed.

Lemma ESCAPE_DCT_printable :
  map_Forall (λ _ r, forallb printable r = true) ESCAPE_DCT.
Proof. apply (bool_decide_unpack _). vm_compute. exact I. Qed.

Lemma json_char_printable (c : N) : forallb printable (json_char c) = true.
Proof.
  unfold json_char. destruct (ESCAPE_ASCII c) eqn:E.
  - unfold escape_replace. destruct (ESCAPE_DCT !! c) as [r|] eqn:Er.
    { exact (map_Forall_lookup_1 _ _ _ _ ESCAPE_DCT_printable Er). }
    destruct (c <? 65536); cbv zeta; rewrite ?forallb_app, ?hex4_printable;
      reflexivity.
  - cbn [forallb]. rewrite andb_true_r. unfold ESCAPE_ASCII in E.
    apply orb_false_iff in E as [_ E]. apply negb_false_iff in E. exact E.
Qed.

Lemma py_encode_basestring_ascii_printable (u : str) :
  forallb printable (py_encode_basestring_ascii u) = true.
Proof.
  unfold py_encode_basestring_ascii. rewrite !forallb_app.
  change (forallb printable [34]) with true. rewrite andb_true_r.
  cbn [andb]. induction u as [|c u IH]; [reflexivity|].
  cbn [flat_map]. by rewrite forallb_app, json_char_printable, IH.
Qed.

Lemma printable_weaken (s : str) :
  forallb printable s = true → forallb printable_or_newline s = true.
Proof.
  rewrite !forallb_forall. intros H c Hc. unfold printable_or_newline.
  rewrite (H c Hc). apply orb_true_r.
Qed.

Lemma layout_printable (indent closing : nat) (elements : list str) :
  Forall (λ x, forallb printable x = true) elements →
  forallb printable_or_newline (array_layout indent closing elements) = true.
Proof.
  assert (∀ n, forallb printable_or_newline (replicate n 32) = true) as Hsp.
  { induction n; [reflexivity|]. cbn [replicate forallb]. by rewrite IHn. }
  intros Hall. destruct Hall as [|x rest Hx Hrest]; unfold array_layout.
  - rewrite !forallb_app, Hsp. reflexivity.
  - cbn [app forallb]. rewrite !forallb_app, !Hsp, (printable_weaken _ Hx).
    cbn [forallb app]. change (printable_or_newline 91) with true.
    change (printable_or_newline 10) with true.
    change (printable_or_newline 93) with true. cbn [andb].
    rewrite forallb_app, Hsp. change (forallb printable_or_newline [93]) with true.
    rewrite !andb_true_r.
    induction Hrest as [|y rest Hy Hrest IH]; [reflexivity|].
    cbn [flat_map app forallb]. rewrite !forallb_app, Hsp, (printable_weaken _ Hy), IH.
    reflexivity.
Qed.

Lemma encode_utf8_ascii (s : str) :
  Forall (λ c, c < 128) s → encode_utf8 s = Return s.
Proof.
  induction 1 as [|c s Hc Hs IH]; [reflexivity|].
  cbn [encode_utf8]. rewrite IH. unfold utf8_char.
  destruct (N.ltb_spec c 128); [reflexivity|lia].
Qed.

Lemma printable_or_newline_ascii (s : str) :
  forallb printable_or_newline s = true → Forall (λ c, c < 128) s.
Proof.
  rewrite forallb_forall, Forall_forall. intros H c Hc%list_elem_of_In.
  specialize (H c Hc). unfold printable_or_newline, printable in H.
  apply orb_true_iff in H as [H|H].
  - apply N.eqb_eq in H. lia.
  - apply andb_true_iff in H as [_ H]. apply N.leb_le in H. lia.
Qed.

Lemma layout_newlines (indent closing : nat) (elements : list str) :
  Forall (λ x, forallb printable x = true) elements →
  newlines (array_layout indent closing elements)
  = match elements with [] => 0%nat | _ => S (length elements) end.
Proof.
  assert (∀ n, filter (λ c, c = 10) (replicate n 32) = []) as Hsp.
  { induction n; [reflexivity|]. cbn [replicate]. by rewrite filter_cons_False. }
  assert (∀ x, forallb printable x = true → filter (λ c, c = 10) x = []) as Hpr.
  { induction x as [|c x IH]; [reflexivity|]. cbn [forallb].
    intros [Hc Hx]%andb_true_iff. rewrite filter_cons_False; [by apply IH|].
    intros ->. discriminate. }
  unfold newlines. intros Hall.
  destruct Hall as [|x rest Hx Hrest]; unfold array_layout.
  - rewrite !filter_app, Hsp. reflexivity.
  - cbn [app]. rewrite filter_cons_False, filter_cons_True by done.
    rewrite !filter_app, !Hsp, (Hpr _ Hx). cbn [app length].
    rewrite length_app, filter_cons_True, filter_app, Hsp by done.
    change (filter (λ c, c = 10) [93]) with (@nil N). cbn [app length].
    enough (length (filter (λ c, c = 10)
              (flat_map (λ y, 44 :: 10 :: replicate indent 32 ++ y) rest))
            = length rest) by lia.
    induction Hrest as [|y rest Hy Hrest IH]; [reflexivity|].
    cbn [flat_map app]. rewrite filter_cons_False, filter_cons_True by done.
    rewrite !filter_app, Hsp, (Hpr _ Hy). cbn [app length]. by rewrite IH.
Qed.

Section EmbeddedText.
Context {OTPAccount : Type} (as_uri : OTPAccount → bool → str).

Lemma accounts_literal_elements accounts prepend_issuer :
  Forall (λ x, forallb printable x = true)
    (map (λ u, py_encode_basestring_ascii (flat_map indent_bracket u))
         (sorted (map (λ a, as_uri a prepend_issuer) accounts))).
Proof.
  apply Forall_forall. intros x (u & -> & _)%list_elem_of_fmap.
  apply py_encode_basestring_ascii_printable.
Qed.

Lemma accounts_literal_printable accounts prepend_issuer :
  forallb printable_or_newline (accounts_literal as_uri accounts prepend_issuer) = true.
Proof.
  rewrite accounts_literal_layout.
  apply layout_printable, accounts_literal_elements.
Qed.

(** X13. Whatever characters the URIs hold, every character of the array
    put into the page is a printable ASCII character or a newline; so its
    UTF-8 encoding cannot fail and is the text itself, byte for byte. *)
Theorem accounts_literal_ascii accounts prepend_issuer :
  forallb printable_or_newline (accounts_literal as_uri accounts prepend_issuer) = true
  ∧ encode_utf8 (accounts_literal as_uri accounts prepend_issuer)
    = Return (accounts_literal as_uri accounts prepend_issuer).
Proof.
  split; [apply accounts_literal_printable|].
  apply encode_utf8_ascii, printable_or_newline_ascii, accounts_literal_printable.
Qed.

(** X14. The array put into the page has one line for each account, between
    the line of the opening bracket and that of the closing one, whatever
    the URIs hold (a newline inside an URI is written as an escape) and
    with accounts of equal URI counted each; for no account it is the two
    brackets on one line. *)
Theorem accounts_literal_lines accounts prepend_issuer :
  newlines (accounts_literal as_uri accounts prepend_issuer)
  = match accounts with [] => 0%nat | _ => S (length accounts) end.
Proof.
  rewrite accounts_literal_layout.
  rewrite layout_newlines by apply accounts_literal_elements.
  rewrite length_map. 
  assert (length (sorted (map (λ a, as_uri a prepend_issuer) accounts))
          = length accounts) as Hlen.
  { rewrite (Permutation_length (sorted_perm _)). apply length_map. }
  destruct accounts as [|a accounts]; [reflexivity|].
  destruct (map _ (sorted _)) eqn:E.
  - apply (f_equal length) in E. rewrite length_map, Hlen in E. discriminate.
  - by rewrite Hlen.
Qed.
End EmbeddedText.

(** ** The disclosure renderer *)

(** The name chosen for a temporary file is not the name of a file that is
    there. *)
Lemma mkstemp_name_fresh (suffix : str) (w : World) :
  tmp_files w !! mkstemp_name suffix w = None.
Proof.
  apply not_elem_of_dom. unfold mkstemp_name. cbv zeta.
  set (stems := set_map _ _). intros Hin.
  apply (is_fresh stems). unfold stems at 2.
  apply elem_of_map. eexists. split; [|exact Hin].
  by rewrite length_app, Nat.add_sub, take_app_length.
Qed.

Section DisplayRuns.
Context {OTPAccount : Type} (as_uri : OTPAccount → bool → str).

Lemma accounts_html_encoded template accounts prepend_issuer :
  Forall (λ c, c < 128) (page_head template) →
  Forall (λ c, c < 128) (page_tail template) →
  encode_utf8 (page_head template
                 ++ accounts_literal as_uri accounts prepend_issuer
                 ++ page_tail template)
  = Return (page_head template
              ++ accounts_literal as_uri accounts prepend_issuer
              ++ page_tail template).
Proof.
  intros Hh Ht. apply encode_utf8_ascii. rewrite !Forall_app.
  split_and!; [done| |done].
  apply printable_or_newline_ascii, accounts_literal_printable.
Qed.

(** X15. With a template of ASCII characters and a write that does not
    fail, the call raises exactly when the browser launcher or, after it,
    the sleep raises, and raises that exception; and on every one of these
    ways out the temporary files of the machine are what they were before
    the call: the page is gone and no other file was touched. *)
Theorem display_qr_codes_restores_files host template accounts prepend_issuer
    (w : World) :
  let path := mkstemp_name (py ".html") w in
  let url := py "file:" ++ pathname2url host path in
  Forall (λ c, c < 128) (page_head template) →
  Forall (λ c, c < 128) (page_tail template) →
  write_fault host path = None →
  fst (display_qr_codes as_uri host template accounts prepend_issuer w)
    = match webbrowser_open host url with
      | Raise e => Raise e
      | Return _ => time_sleep host 10
      end
  ∧ tmp_files (snd (display_qr_codes as_uri host template accounts prepend_issuer w))
    = tmp_files w.
Proof.
  intros path url Hh Ht Hw. rewrite display_qr_codes_run. cbv zeta.
  rewrite (accounts_html_encoded _ _ _ Hh Ht). fold path. rewrite Hw. fold url.
  assert (∀ (f : File → File) x,
            delete path (alter f path (<[path:=x]> (tmp_files w))) = tmp_files w)
    as Hrestore.
  { intros f x. rewrite delete_alter_eq. apply delete_insert_id, mkstemp_name_fresh. }
  destruct (webbrowser_open host url); world_simpl; by rewrite Hrestore.
Qed.

(** X16. With a template of ASCII characters and a write that does not
    fail, the renderer does these things in this order: it creates the file
    with mode [0o600], writes the page (the template around the array, as
    it is) and closes the file, and only then opens the browser on [file:]
    followed by the quoted path; it sleeps ten seconds if the launcher
    returned, whatever it returned, and not if it raised; and the last
    thing it does is remove the file. *)
Theorem display_qr_codes_steps host template accounts prepend_issuer (w : World) :
  let path := mkstemp_name (py ".html") w in
  let url := py "file:" ++ pathname2url host path in
  let page :=
    page_head template ++ accounts_literal as_uri accounts prepend_issuer
      ++ page_tail template in
  Forall (λ c, c < 128) (page_head template) →
  Forall (λ c, c < 128) (page_tail template) →
  write_fault host path = None →
  trace (snd (display_qr_codes as_uri host template accounts prepend_issuer w))
  = trace w
      ++ [EvMkstemp path 384; EvWrite path page; EvCloseFile path; EvBrowserOpen url]
      ++ match webbrowser_open host url with
         | Return _ => [EvSleep 10]
         | Raise _ => []
         end
      ++ [EvRemove path].
Proof.
  intros path url page Hh Ht Hw. rewrite display_qr_codes_run. cbv zeta.
  rewrite (accounts_html_encoded _ _ _ Hh Ht). fold path page. rewrite Hw. fold url.
  destruct (webbrowser_open host url); world_simpl;
    by rewrite <- !app_assoc.
Qed.

(** X17. If the write of the page raises, the renderer raises that
    exception without opening the browser, sleeping or removing anything:
    the file it created is left, with mode [0o600], holding the part of the
    page that had been written before the write failed. *)
Theorem display_qr_codes_write_error host template accounts prepend_issuer
    (w : World) (e : exn) :
  let path := mkstemp_name (py ".html") w in
  let page :=
    page_head template ++ accounts_literal as_uri accounts prepend_issuer
      ++ page_tail template in
  let written := take (write_progress host path) page in
  let w' := snd (display_qr_codes as_uri host template accounts prepend_issuer w) in
  Forall (λ c, c < 128) (page_head template) →
  Forall (λ c, c < 128) (page_tail template) →
  write_fault host path = Some e →
  fst (display_qr_codes as_uri host template accounts prepend_issuer w) = Raise e
  ∧ tmp_files w' = <[path := {| st_mode := 384; contents := written |}]> (tmp_files w)
  ∧ trace w' = trace w ++ [EvMkstemp path 384; EvWrite path written; EvCloseFile path].
Proof.
  intros path page written w' Hh Ht Hw. subst w'.
  rewrite display_qr_codes_run. cbv zeta.
  rewrite (accounts_html_encoded _ _ _ Hh Ht). fold path page. rewrite Hw.
  fold written. world_simpl. split_and!; [done| |by rewrite <- !app_assoc].
  apply map_eq. intros k. destruct (decide (k = path)) as [->|Hk].
  - by rewrite lookup_alter_eq, !lookup_insert_eq.
  - by rewrite lookup_alter_ne, !lookup_insert_ne.
Qed.
End DisplayRuns.

Lemma display_qr_codes_restores_files_witness :
  tmp_files (snd (display_qr_codes uri_account no_fault_host short_page
                    [py "otpauth://totp/a?secret=X"] false empty_world))
  = tmp_files empty_world.
Proof.
  refine (proj2 (display_qr_codes_restores_files uri_account no_fault_host
                   short_page [py "otpauth://totp/a?secret=X"] false empty_world
                   _ _ _)).
  - apply (bool_decide_unpack _). vm_compute. exact I.
  - apply (bool_decide_unpack _). vm_compute. exact I.
  - reflexivity.
Defined.

Lemma display_qr_codes_steps_witness :
  trace (snd (display_qr_codes uri_account no_fault_host short_page [] false
                empty_world))
  = [EvMkstemp (py ".html") 384;
     EvWrite (py ".html") (py "const ACCOUNTS = [        ];");
     EvCloseFile (py ".html"); EvBrowserOpen (py "file:.html");
     EvSleep 10; EvRemove (py ".html")].
Proof.
  refine (display_qr_codes_steps uri_account no_fault_host short_page [] false
            empty_world _ _ _).
  - apply (bool_decide_unpack _). vm_compute. exact I.
  - apply (bool_decide_unpack _). vm_compute. exact I.
  - reflexivity.
Defined.

Lemma display_qr_codes_write_error_witness :
  fst (display_qr_codes uri_account interrupted_write_host short_page [] false
         empty_world)
    = Raise (OtherError (py "OSError") (py "Input/output error"))
  ∧ tmp_files (snd (display_qr_codes uri_account interrupted_write_host short_page
                      [] false empty_world))
    = {[ py ".html" := {| st_mode := 384; contents := py "const " |} ]}.
Proof.
  destruct (display_qr_codes_write_error uri_account interrupted_write_host
              short_page [] false empty_world
              (OtherError (py "OSError") (py "Input/output error")))
    as (Hr & Hf & _).
  - apply (bool_decide_unpack _). vm_compute. exact I.
  - apply (bool_decide_unpack _). vm_compute. exact I.
  - reflexivity.
  - split; [exact Hr|]. rewrite Hf. vm_compute. reflexivity.
Defined.

(** ** Names of the local copies *)

Lemma loop_nameless host adb p d ss w :
  name p = [] → ss ≠ [] →
  ∃ e, for_ ss (pull host adb p d) w = (Raise e, w).
Proof.
  intros Hname Hss. destruct ss as [|s ss]; [done|]. eexists.
  cbn [for_]. unfold bind at 1, pull at 1, bind at 1, lift at 1.
  by rewrite with_name_empty_name.
Qed.

(** X18. Whatever the database path is, the name of every file the loop
    puts into the temporary directory is one path component: it is not
    empty, it is not a single dot and it has no slash in it, so that no
    copy is written into a subdirectory or under another directory's
    name. *)
Theorem snapshot_entry_names (host : Host) (adb : AdbClient)
    (database d : str) (w w' : World)
    (r : outcome unit) (entries : gmap str bytes) (k : str) :
  tmp_dirs w !! d = Some ∅ →
  for_ suffixes (pull host adb (parse_path database) d) w = (r, w') →
  tmp_dirs w' !! d = Some entries →
  is_Some (entries !! k) →
  k ≠ [] ∧ k ≠ [46] ∧ sep ∉ k.
Proof.
  intros Hd Hloop Hentries Hk.
  destruct (decide (name (parse_path database) = [])) as [Hn|Hn].
  { destruct (loop_nameless host adb _ d suffixes w Hn) as [e He]; [done|].
    rewrite He in Hloop. injection Hloop as _ <-.
    rewrite Hd in Hentries. injection Hentries as <-.
    destruct Hk as [? Hk]. by rewrite lookup_empty in Hk. }
  destruct (parse_path_name_component database Hn) as (Hne & Hdot & Hsep).
  destruct (loop_entries _ _ _ _ _ _ _ _ _ Hd Hloop) as (entries' & H1 & _ & H3).
  rewrite Hentries in H1. injection H1 as <-.
  destruct (H3 k Hk) as [[? Hin]|(s & Hs & ->)].
  { by rewrite lookup_empty in Hin. }
  split_and!.
  - intros [? _]%app_eq_nil. done.
  - destruct (name (parse_path database)) as [|c [|c' n]]; [done| |done].
    intros [= -> _]. done.
  - rewrite elem_of_app. intros [?|?]; [done|].
    by apply (suffixes_no_sep s Hs).
Qed.

Lemma snapshot_entry_names_witness :
  py "passwd-wal" ≠ [] ∧ py "passwd-wal" ≠ [46] ∧ sep ∉ py "passwd-wal".
Proof.
  pose (adb := {| read_file := λ _, Return {| read := Return [0] |} |}).
  pose (w := set_tmp_dirs (insert (py "tmp") ∅) empty_world).
  refine (snapshot_entry_names no_fault_host adb (py "../../etc/passwd") (py "tmp")
            w (snd (for_ suffixes
                      (pull no_fault_host adb (parse_path (py "../../etc/passwd"))
                            (py "tmp")) w))
            (fst (for_ suffixes
                    (pull no_fault_host adb (parse_path (py "../../etc/passwd"))
                          (py "tmp")) w))
            (list_to_map [(py "passwd", [0]); (py "passwd-journal", [0]);
                          (py "passwd-wal", [0]); (py "passwd-shm", [0])])
            (py "passwd-wal") _ _ _ _).
  - vm_compute. reflexivity.
  - apply surjective_pairing.
  - vm_compute. reflexivity.
  - vm_compute. by eexists.
Defined.
